(** * RampForgeAI: the client-side session state machine

    A shallow embedding of the authentication code of the frontend:
    - [AuthService]  (lib/auth.ts): the token store kept in [localStorage]
      and mirrored in a cookie, and the calls to the auth endpoints;
    - [ApiClient]    (lib/api.ts): the shared response handler that clears
      the credentials and broadcasts [auth-expired] on a 401;
    - [AuthProvider] (components/auth/AuthProvider.tsx): the React state
      [user] / [isLoading], login, logout, the mount effect [initAuth] and
      the periodic validation;
    - [ProtectedRoute] and [RouteGuard]: the guards that read that state.

    Asynchronous functions are embedded as resumptions ([Proc]): a flow
    either is finished, or is suspended on a [fetch] and exposes the world
    every other piece of code sees while it waits. *)

From stdpp Require Import base option strings gmap pretty.
From Stdlib Require Import ZArith Bool.

Local Open Scope string_scope.
Local Open Scope Z_scope.

(** ** Data model (lib/auth.ts) *)

(** [interface User].  The field [id] is spelt [user_id] here;
    [learning_progress] keeps each value as its JSON text. *)
Record User := mkUser {
  user_id : string;
  email : string;
  name : string;
  role : string;
  is_active : bool;
  skills : list string;
  learning_progress : list (string * string);
  created_at : string;
  last_active : option string
}.

(** [interface AuthResponse]; its field [user] is spelt [auth_user]. *)
Record AuthResponse := mkAuthResponse {
  access_token : string;
  token_type : string;
  expires_in : Z;
  auth_user : User
}.

(** [interface LoginCredentials]; its field [email] is spelt [login_email]. *)
Record LoginCredentials := mkLoginCredentials {
  login_email : string;
  password : string
}.

(** What a JavaScript [throw] carries. *)
Inductive Exn :=
| TypeError (msg : string)     (* fetch() rejects: the network failed *)
| SyntaxError                  (* JSON.parse / response.json() rejects *)
| Error (msg : string).        (* new Error(msg) *)

(** The completion of a call: a value or a thrown exception. *)
Inductive Outcome (A : Type) :=
| Return (a : A)
| Throw (e : Exn).
Arguments Return {A} a.
Arguments Throw {A} e.

(** The platform's [JSON] object, as far as the token store uses it:
    [JSON.stringify(user)] and [JSON.parse(text)].  [JSON_parse] may throw;
    [Return None] stands for a text that parses to [null]. *)
Class JSON := {
  JSON_stringify : User -> string;
  JSON_parse : string -> Outcome (option User)
}.

(** JavaScript truthiness of a [string | null] value: [null] and the empty
    string are falsy. *)
Definition truthy (s : option string) : bool :=
  match s with
  | None => false
  | Some t => negb (String.eqb t "")
  end.

(** [a || b] on strings where [a] may be missing. *)
Definition or_else (a : option string) (b : string) : string :=
  if truthy a then default b a else b.

(** ** The world *)

(** What a browser window gives the code: [localStorage], the cookie jar
    behind [document.cookie] (cookie name to value) and what an assignment
    to [document.cookie] does to the jar.  The last is the browser's own
    algorithm: it cuts the value at the first semicolon and trims it, and it
    refuses a [secure] cookie on an origin that is not secure; the model
    takes it as it comes, as a function of the assigned text and the jar.
    (The one assignment with an [expires] date in the past, in
    [removeToken] and in the API client, is written as the deletion it
    is.) *)
Record Browser := mkBrowser {
  localStorage : gmap string string;
  cookie : gmap string string;
  document_cookie : string -> gmap string string -> gmap string string
}.

(** The whole state the session code reads and writes.  [window = None] is
    an execution context where [typeof window === 'undefined'] (server-side
    render).  [user] and [isLoading] are the two [useState] cells of
    [AuthProvider].  Console output is not part of the model. *)
Record World := mkWorld {
  window : option Browser;
  user : option User;
  isLoading : bool
}.

Definition with_window (b : Browser) (w : World) : World :=
  mkWorld (Some b) (user w) (isLoading w).

(** ** Asynchronous flows *)

(** The four auth endpoints a flow can [fetch]; each request carries what the
    code sends: the credentials, or the bearer token of [getAuthHeaders]. *)
Inductive Request :=
| PostLogin (credentials : LoginCredentials)
| PostLogout (bearer : option string)
| GetMe (bearer : option string)
| GetVerify (bearer : option string).

(** The type of the data a successful reply to a request carries. *)
Definition payload (req : Request) : Type :=
  match req with
  | PostLogin _ => AuthResponse
  | PostLogout _ => unit
  | GetMe _ => User
  | GetVerify _ => unit
  end.

(** The body of an error reply, as the code reads it: [detail], [message]. *)
Record ErrorBody := mkErrorBody {
  detail : option string;
  message : option string
}.

(** A [Response].  [response.json()] is read as [json_error] when the code
    looks at it as an error object and as [json_data] when it looks at it as
    the data of the endpoint; [None] means [response.json()] rejects. *)
Record Response (P : Type) := mkResponse {
  status : Z;
  json_error : option ErrorBody;
  json_data : option P
}.
Arguments mkResponse {P} status json_error json_data.
Arguments status {P} r.
Arguments json_error {P} r.
Arguments json_data {P} r.

(** [response.ok]: the status is in the range 200-299. *)
Definition ok {P} (r : Response P) : bool :=
  (200 <=? status r) && (status r <=? 299).

(** What [await fetch(...)] yields: the promise rejects (no connectivity), or
    it resolves to a response, whatever its status. *)
Inductive Reply (P : Type) :=
| Rejects
| Responds (r : Response P).
Arguments Rejects {P}.
Arguments Responds {P} r.

(** A flow that is finished in world [w] with outcome [r], or suspended on
    [await fetch(req)] having left the world at [w]; it resumes with the
    reply and the world as it is by then. *)
Inductive Proc (A : Type) :=
| Done (w : World) (r : Outcome A)
| Await (w : World) (req : Request) (k : Reply (payload req) -> World -> Proc A).
Arguments Done {A} w r.
Arguments Await {A} w req k.

(** [await p] followed by the rest of the function. *)
Fixpoint bind {A B} (p : Proc A) (f : A -> World -> Proc B) : Proc B :=
  match p with
  | Done w (Return a) => f a w
  | Done w (Throw e) => Done w (Throw e)
  | Await w req k => Await w req (fun r w' => bind (k r w') f)
  end.

(** [try { p } catch (e) { h e }]. *)
Fixpoint try_catch {A} (p : Proc A) (h : Exn -> World -> Proc A) : Proc A :=
  match p with
  | Done w (Return a) => Done w (Return a)
  | Done w (Throw e) => h e w
  | Await w req k => Await w req (fun r w' => try_catch (k r w') h)
  end.

(** [try { p } finally { f }] for a synchronous [f]. *)
Fixpoint finally {A} (p : Proc A) (f : World -> World) : Proc A :=
  match p with
  | Done w r => Done (f w) r
  | Await w req k => Await w req (fun r w' => finally (k r w') f)
  end.

(** The world every other piece of code sees once the flow has run as far as
    it can without a reply. *)
Definition visible {A} (p : Proc A) : World :=
  match p with
  | Done w _ => w
  | Await w _ _ => w
  end.

(** Whether the flow is waiting for a reply. *)
Definition pending {A} (p : Proc A) : bool :=
  match p with
  | Done _ _ => false
  | Await _ _ _ => true
  end.

(** The network: the reply each request gets. *)
Definition Network := forall req : Request, Reply (payload req).

(** Runs a flow to its end against a network, with no other flow touching
    the world while it waits. *)
Fixpoint run {A} (net : Network) (p : Proc A) : World * Outcome A :=
  match p with
  | Done w r => (w, r)
  | Await w req k => run net (k (net req) w)
  end.

(** The requests a flow sends when it runs against a network, in order. *)
Fixpoint requests {A} (net : Network) (p : Proc A) : list Request :=
  match p with
  | Done _ _ => []
  | Await w req k => req :: requests net (k (net req) w)
  end.

(** Runs a flow among other flows: each time it waits for a reply, the rest
    of the application turns the world [w] it left into [others w] before
    it resumes. *)
Fixpoint run_among {A} (net : Network) (others : World -> World)
    (p : Proc A) : World * Outcome A :=
  match p with
  | Done w r => (w, r)
  | Await w req k => run_among net others (k (net req) (others w))
  end.

(** The flow keeps the property [I] of the world: [I] holds wherever the
    flow stops, provided it holds of the world whenever the flow resumes. *)
Fixpoint keeps {A} (I : World -> Prop) (p : Proc A) : Prop :=
  match p with
  | Done w _ => I w
  | Await w _ k => I w /\ forall r w', I w' -> keeps I (k r w')
  end.

(** ** lib/auth.ts: [AuthService] *)

Module AuthService.

Definition TOKEN_KEY : string := "rampforge_token".
Definition USER_KEY : string := "rampforge_user".

Definition getToken (w : World) : option string :=
  match window w with
  | None => None
  | Some b => localStorage b !! TOKEN_KEY
  end.

(** Writes the token to [localStorage] and assigns the cookie text to
    [document.cookie]; what the jar holds afterwards is up to the browser. *)
Definition setToken (token : string) (w : World) : World :=
  match window w with
  | None => w
  | Some b =>
      with_window
        (mkBrowser (<[TOKEN_KEY := token]> (localStorage b))
                   (document_cookie b
                      (TOKEN_KEY +:+ "=" +:+ token
                       +:+ "; path=/; secure; samesite=strict")
                      (cookie b))
                   (document_cookie b)) w
  end.

(** Removes both keys; the cookie assignment carries an [expires] in the
    past, which deletes the cookie. *)
Definition removeToken (w : World) : World :=
  match window w with
  | None => w
  | Some b =>
      with_window
        (mkBrowser (delete USER_KEY (delete TOKEN_KEY (localStorage b)))
                   (delete TOKEN_KEY (cookie b))
                   (document_cookie b)) w
  end.

Section WithJSON.
Context `{JSON}.

Definition getUser (w : World) : Outcome (option User) :=
  match window w with
  | None => Return None
  | Some b =>
      let userStr := localStorage b !! USER_KEY in
      if truthy userStr then JSON_parse (default "" userStr)
      else Return None
  end.

Definition setUser (u : User) (w : World) : World :=
  match window w with
  | None => w
  | Some b =>
      with_window
        (mkBrowser (<[USER_KEY := JSON_stringify u]> (localStorage b))
                   (cookie b) (document_cookie b)) w
  end.

End WithJSON.

(** The [Authorization] header, kept as the bearer token: [None] is the
    empty header object. *)
Definition getAuthHeaders (w : World) : option string :=
  if truthy (getToken w) then getToken w else None.

Section WithJSON.
Context `{JSON}.

(** [fetch] is outside any [try]: a rejection propagates.  A reply that
    is not ok throws [new Error(error.detail || 'Login failed')], or the
    rejection of [response.json()].  Only an ok reply with a readable
    body reaches [setToken] and [setUser]. *)
Definition login (credentials : LoginCredentials) (w : World)
  : Proc AuthResponse :=
  Await w (PostLogin credentials) (fun reply w =>
    match reply with
    | Rejects => Done w (Throw (TypeError "Failed to fetch"))
    | Responds response =>
        if negb (ok response) then
          match json_error response with
          | None => Done w (Throw SyntaxError)
          | Some error =>
              Done w (Throw (Error (or_else (detail error) "Login failed")))
          end
        else
          match json_data response with
          | None => Done w (Throw SyntaxError)
          | Some authResponse =>
              let w := setToken (access_token authResponse) w in
              let w := setUser (auth_user authResponse) w in
              Done w (Return authResponse)
          end
    end).

(** Every failure ends in [return null]; only a 401 reply also calls
    [removeToken].  The [catch] covers the rejection of [fetch] and of
    [response.json()]. *)
Definition getCurrentUser (w : World) : Proc (option User) :=
  if negb (truthy (getToken w)) then Done w (Return None)
  else
    Await w (GetMe (getAuthHeaders w)) (fun reply w =>
      match reply with
      | Rejects => Done w (Return None)
      | Responds response =>
          if negb (ok response) then
            let w := if status response =? 401 then removeToken w else w in
            Done w (Return None)
          else
            match json_data response with
            | None => Done w (Return None)
            | Some u => Done (setUser u w) (Return (Some u))
            end
      end).

End WithJSON.

(** The request is sent only when a token is stored; whatever comes back,
    and also when [fetch] rejects (the [catch] only logs), the token is
    removed afterwards. *)
Definition logout (w : World) : Proc unit :=
  if truthy (getToken w) then
    Await w (PostLogout (getAuthHeaders w)) (fun _ w =>
      Done (removeToken w) (Return tt))
  else Done (removeToken w) (Return tt).

(** [true] only for an ok reply.  A reply that is not ok gives [false], and
    removes the token when its status is 401; a rejected [fetch] is caught
    and gives [false] too, leaving the token. *)
Definition verifyToken (w : World) : Proc bool :=
  if negb (truthy (getToken w)) then Done w (Return false)
  else
    Await w (GetVerify (getAuthHeaders w)) (fun reply w =>
      match reply with
      | Rejects => Done w (Return false)
      | Responds response =>
          if negb (ok response) then
            let w := if status response =? 401 then removeToken w else w in
            Done w (Return false)
          else Done w (Return true)
      end).

(** [isAuthenticated]: both getters are called, then [!!(token && user)]. *)
Definition isAuthenticated `{JSON} (w : World) : Outcome bool :=
  let token := getToken w in
  match getUser w with
  | Throw e => Throw e
  | Return user => Return (truthy token && bool_decide (is_Some user))
  end.

(** [checkAuthStatus]: the token test, then [verifyToken]. *)
Definition checkAuthStatus (w : World) : Proc bool :=
  if negb (truthy (getToken w)) then Done w (Return false)
  else verifyToken w.

End AuthService.

(** ** lib/api.ts: [ApiClient] *)

Module ApiClient.

(** [interface ApiResponse<T>]. *)
Record ApiResponse (T : Type) := mkApiResponse {
  data : option T;
  error : option string;
  api_status : Z
}.
Arguments mkApiResponse {T} data error api_status.

(** [window.dispatchEvent(new CustomEvent('auth-expired'))]: the listeners
    registered for the event run at once, in order, each on the world the
    previous one left. *)
Definition dispatchEvent (listeners : list (World -> World)) (w : World)
  : World :=
  foldl (fun w listener => listener w) w listeners.

(** The statements of the 401 branch that come before the broadcast. *)
Definition clearCredentials (b : Browser) : Browser :=
  let ls := delete "rampforge_token" (localStorage b) in
  let ls := delete "rampforge_user" ls in
  mkBrowser ls (delete "rampforge_token" (cookie b)) (document_cookie b).

(** [handleResponse]: on a 401 in a browser the credentials are cleared and
    then [auth-expired] is dispatched; after that the body is read and
    wrapped.  [listeners] are the listeners registered on [window]. *)
Definition handleResponse {T} (listeners : list (World -> World))
    (response : Response T) (w : World) : World * ApiResponse T :=
  let status := status response in
  let w :=
    match window w with
    | Some b =>
        if status =? 401
        then dispatchEvent listeners (with_window (clearCredentials b) w)
        else w
    | None => w
    end in
  if negb (ok response) then
    match json_error response with
    | None =>
        (w, mkApiResponse None
              (Some "Failed to parse response: SyntaxError") status)
    | Some body =>
        (w, mkApiResponse None
              (Some (or_else (detail body)
                       (or_else (message body) ("HTTP " +:+ pretty status))))
              status)
    end
  else
    match json_data response with
    | None =>
        (w, mkApiResponse None
              (Some "Failed to parse response: SyntaxError") status)
    | Some d => (w, mkApiResponse (Some d) None status)
    end.

(** [getAuthHeaders]: no header at all without a [window]; otherwise the
    content type and, when a token is stored, the bearer. *)
Definition getAuthHeaders (w : World) : gmap string string :=
  match window w with
  | None => ∅
  | Some b =>
      let token := localStorage b !! "rampforge_token" in
      let headers : gmap string string :=
        {["Content-Type" := "application/json"]} in
      if truthy token
      then <["Authorization" := "Bearer " +:+ default "" token]> headers
      else headers
  end.

(** [get], [post], [put] and [delete] share one shape: the [fetch] is sent
    with [getAuthHeaders()] and sits in a [try]; a rejection is turned into
    a result with status 0, a response goes through [handleResponse]. *)
Definition request {T} (listeners : list (World -> World))
    (reply : Reply T) (w : World) : World * ApiResponse T :=
  match reply with
  | Rejects =>
      (w, mkApiResponse None (Some "Network error: TypeError: Failed to fetch") 0)
  | Responds response => handleResponse listeners response w
  end.

(** [healthCheck] is [get('/api/health')]; [testConnection] compares the
    status of its result with 200. *)
Definition testConnection (listeners : list (World -> World))
    (reply : Reply unit) (w : World) : World * bool :=
  let result := request listeners reply w in
  (result.1, api_status unit result.2 =? 200).

End ApiClient.

(** ** components/auth/AuthProvider.tsx *)

Module AuthProvider.

(** The setters of the two [useState] cells. *)
Definition setUser (u : option User) (w : World) : World :=
  mkWorld (window w) u (isLoading w).

Definition setIsLoading (l : bool) (w : World) : World :=
  mkWorld (window w) (user w) l.

(** The state a freshly mounted provider starts from:
    [useState(null)] and [useState(true)]. *)
Definition mount (win : option Browser) : World :=
  mkWorld win None true.

(** [isAuthenticated: !!user && !!AuthService.getToken()]. *)
Definition isAuthenticated (w : World) : bool :=
  bool_decide (is_Some (user w)) && truthy (AuthService.getToken w).

Section WithJSON.
Context `{JSON}.

Definition refreshUser (w : World) : Proc unit :=
  try_catch
    (bind (AuthService.getCurrentUser w) (fun currentUser w =>
       Done (setUser currentUser w) (Return tt)))
    (fun _ w => Done (setUser None w) (Return tt)).

(** The [catch] only rethrows. *)
Definition login (email password : string) (w : World) : Proc unit :=
  try_catch
    (bind (AuthService.login (mkLoginCredentials email password) w)
       (fun authResponse w =>
          Done (setUser (Some (auth_user authResponse)) w) (Return tt)))
    (fun error w => Done w (Throw error)).

(** The body of the [try] of [initAuth], after [setIsLoading(true)]. *)
Definition initAuth_try (w : World) : Proc unit :=
  if negb (truthy (AuthService.getToken w)) then
    Done (setUser None w) (Return tt)
  else
    match AuthService.getUser w with
    | Throw e => Done w (Throw e)
    | Return (Some currentUser) =>
        bind (AuthService.verifyToken w) (fun isValid w =>
          if isValid then
            Done (setUser (Some currentUser) w) (Return tt)
          else
            Done (setUser None (AuthService.removeToken w)) (Return tt))
    | Return None =>
        bind (AuthService.getCurrentUser w) (fun currentUser w =>
          Done (setUser currentUser w) (Return tt))
    end.

(** [initAuth], the flow started by the mount effect. *)
Definition initAuth (w : World) : Proc unit :=
  let w := setIsLoading true w in
  finally
    (try_catch (initAuth_try w)
       (fun _ w =>
          Done (setUser None (AuthService.removeToken w)) (Return tt)))
    (setIsLoading false).

End WithJSON.

Definition logout (w : World) : Proc unit :=
  try_catch
    (bind (AuthService.logout w) (fun _ w =>
       Done (setUser None w) (Return tt)))
    (fun _ w => Done (setUser None w) (Return tt)).

(** The listener the mount effect registers for [auth-expired]. *)
Definition handleAuthExpired (w : World) : World :=
  setUser None w.

(** Whether the second effect arms the interval: [user] and a token. *)
Definition interval_armed (w : World) : bool :=
  bool_decide (is_Some (user w)) && truthy (AuthService.getToken w).

(** One run of the interval callback (every 10 minutes). *)
Definition interval_ms : Z := 10 * 60 * 1000.

Definition periodic_check (w : World) : Proc unit :=
  if truthy (AuthService.getToken w) then
    bind (AuthService.verifyToken w) (fun isValid w =>
      if negb isValid then Done (setUser None w) (Return tt)
      else Done w (Return tt))
  else Done w (Return tt).

End AuthProvider.

(** ** The session state the guards read *)

(** The three states of the session: the provider is still initialising
    ([isLoading]), or it holds a user and a token, or it does not. *)
Inductive SessionState :=
| Initializing
| Authenticated (u : User)
| Unauthenticated.

(** How a consumer of the context reads [isLoading], [isAuthenticated] and
    [user]: [isLoading] is looked at first, by both guards. *)
Definition sessionState (w : World) : SessionState :=
  if isLoading w then Initializing
  else
    match user w with
    | Some u =>
        if AuthProvider.isAuthenticated w then Authenticated u
        else Unauthenticated
    | None => Unauthenticated
    end.

(** The token store holds neither the token nor the user snapshot, and the
    mirrored cookie is gone. *)
Definition store_empty (w : World) : Prop :=
  forall b, window w = Some b ->
    localStorage b !! AuthService.TOKEN_KEY = None /\
    localStorage b !! AuthService.USER_KEY = None /\
    cookie b !! AuthService.TOKEN_KEY = None.

(** A snapshot is stored only beside a token. *)
Definition paired (w : World) : Prop :=
  forall b, window w = Some b ->
    is_Some (localStorage b !! AuthService.USER_KEY) ->
    is_Some (localStorage b !! AuthService.TOKEN_KEY).

(** ** components/auth/ProtectedRoute.tsx *)

Module ProtectedRoute.

(** What the component returns. *)
Inductive Rendered :=
| RenderFallback      (* <>{fallback}</> *)
| RenderNull          (* null *)
| RenderChildren.     (* <>{children}</> *)

(** [requiredRole.includes(user.role)]. *)
Definition includes (requiredRole : list string) (r : string) : bool :=
  existsb (String.eqb r) requiredRole.

(** One run of the effect: the [router.push] calls it makes. *)
Definition effect (requiredRole : list string) (w : World) : list string :=
  if isLoading w then []
  else if negb (AuthProvider.isAuthenticated w) then ["/login"]
  else
    match user w with
    | Some u =>
        if (0 <? Z.of_nat (length requiredRole))
           && negb (includes requiredRole (role u))
        then ["/unauthorized"]
        else []
    | None => []
    end.

(** The render decision. *)
Definition render (requiredRole : list string) (w : World) : Rendered :=
  if isLoading w then RenderFallback
  else if negb (AuthProvider.isAuthenticated w) then RenderNull
  else RenderChildren.

End ProtectedRoute.

(** ** components/auth/RouteGuard.tsx, the render decision *)

Module RouteGuard.

Inductive Rendered :=
| RenderSpinner
| RenderChildren.

(** The root layout wraps every page in [RouteGuard]: the pages, and with
    them every caller of [login] and [logout], are rendered only once
    [isLoading] is false. *)
Definition render (w : World) : Rendered :=
  if isLoading w then RenderSpinner else RenderChildren.

Definition protectedRoutes : list string :=
  ["/dashboard"; "/profile"; "/analysis"; "/chat"; "/learning"; "/settings"].

Definition publicRoutes : list string :=
  ["/"; "/login"; "/register"; "/about"; "/test-api"].

(** [pathname.startsWith(route)]. *)
Definition startsWith (pathname route : string) : bool :=
  String.prefix route pathname.

(** One run of the effect: the [router.push] calls it makes.
    [encodeURIComponent] is the platform function; [redirect] is
    [new URLSearchParams(window.location.search).get('redirect')].
    [isPublicRoute] is computed and never used, as in the source. *)
Definition effect (encodeURIComponent : string -> string)
    (pathname : string) (redirect : option string) (w : World)
  : list string :=
  if isLoading w then []
  else
    let isProtectedRoute := existsb (startsWith pathname) protectedRoutes in
    let isPublicRoute :=
      existsb (fun route => String.eqb pathname route
                            || startsWith pathname route) publicRoutes in
    if isProtectedRoute && negb (AuthProvider.isAuthenticated w)
    then ["/login?redirect=" +:+ encodeURIComponent pathname]
    else if (String.eqb pathname "/login" || String.eqb pathname "/register")
            && AuthProvider.isAuthenticated w
    then [or_else redirect "/dashboard"]
    else [].

End RouteGuard.

(** ** Sample data for the closed examples *)

Module Sample.

Definition dq : string := String (Ascii.ascii_of_nat 34) "".

Definition quoted (s : string) : string := dq +:+ s +:+ dq.

Definition field (k v : string) : string := quoted k +:+ ":" +:+ v.

Definition array (l : list string) : string :=
  "[" +:+ String.concat "," (map quoted l) +:+ "]".

Definition object (l : list (string * string)) : string :=
  "{" +:+ String.concat "," (map (fun kv => field kv.1 kv.2) l) +:+ "}".

(** The JSON text of a user whose strings need no escaping. *)
Definition stringify (u : User) : string :=
  object
    ([("id", quoted (user_id u));
      ("email", quoted (email u));
      ("name", quoted (name u));
      ("role", quoted (role u));
      ("is_active", if is_active u then "true" else "false");
      ("skills", array (skills u));
      ("learning_progress", object (learning_progress u));
      ("created_at", quoted (created_at u))]
     ++ match last_active u with
        | Some t => [("last_active", quoted t)]
        | None => []
        end).

Definition u1 : User :=
  mkUser "u1" "a@b.com" "Ada" "developer" true ["typescript"] []
         "2024-01-01T00:00:00Z" None.

(** A [JSON] that parses the documents of the examples: the text of [u1]
    and [null]; any other text is taken as malformed. *)
Definition json : JSON :=
  {| JSON_stringify := stringify;
     JSON_parse := fun s =>
       if String.eqb s (stringify u1) then Return (Some u1)
       else if String.eqb s "null" then Return None
       else Throw SyntaxError |}.

(** The text of [s] before the first [c], and the text after it. *)
Fixpoint before (c : Ascii.ascii) (s : string) : string :=
  match s with
  | EmptyString => EmptyString
  | String a rest =>
      if Ascii.eqb a c then EmptyString else String a (before c rest)
  end.

Fixpoint after (c : Ascii.ascii) (s : string) : string :=
  match s with
  | EmptyString => EmptyString
  | String a rest => if Ascii.eqb a c then rest else after c rest
  end.

(** The [document.cookie] of the sample browsers, pages on a secure
    origin: the pair before the first semicolon is stored, name to value
    (the sample values need no trimming). *)
Definition assign (text : string) (jar : gmap string string)
  : gmap string string :=
  let semicolon := Ascii.ascii_of_nat 59 in
  let equals := Ascii.ascii_of_nat 61 in
  let pair := before semicolon text in
  <[before equals pair := after equals pair]> jar.

(** A browser holding the token [T1] and the snapshot of [u1]. *)
Definition warm : Browser :=
  mkBrowser
    (<[AuthService.USER_KEY := stringify u1]>
       (<[AuthService.TOKEN_KEY := "T1"]> ∅))
    (<[AuthService.TOKEN_KEY := "T1"]> ∅)
    assign.

(** A browser with nothing stored. *)
Definition cold : Browser := mkBrowser ∅ ∅ assign.

(** No connectivity: every [fetch] rejects. *)
Definition offline : Network := fun _ => Rejects.

(** Every request is answered with the given status and an empty error
    object. *)
Definition answers (s : Z) : Network :=
  fun _ => Responds (mkResponse s (Some (mkErrorBody None None)) None).

(** A signed-in session: the browser [warm], the provider holding [u1],
    initialisation finished. *)
Definition signed_in : World := mkWorld (Some warm) (Some u1) false.



(** A browser holding the token [T1] and no snapshot. *)
Definition token_only : Browser :=
  mkBrowser (<[AuthService.TOKEN_KEY := "T1"]> ∅)
            (<[AuthService.TOKEN_KEY := "T1"]> ∅)
            assign.

(** A browser holding the token [T1] and a snapshot that is not JSON. *)
Definition corrupt : Browser :=
  mkBrowser
    (<[AuthService.USER_KEY := "{oops"]>
       (<[AuthService.TOKEN_KEY := "T1"]> ∅))
    (<[AuthService.TOKEN_KEY := "T1"]> ∅)
    assign.

(** [/me] is answered with [u1]; every other request fails. *)
Definition me_ok : Network :=
  fun req =>
    match req with
    | GetMe _ => Responds (mkResponse 200 None (Some u1))
    | _ => Rejects
    end.

End Sample.

(** * Properties *)

(** ** Helper lemmas on the token store *)

Lemma keys_differ : AuthService.TOKEN_KEY ≠ AuthService.USER_KEY.
Proof. discriminate. Qed.

Lemma truthy_Some (t : string) : truthy (Some t) = true <-> t ≠ "".
Proof.
  unfold truthy. destruct (String.eqb_spec t ""); simpl; split; intros; congruence.
Qed.

Lemma truthy_is_Some (s : option string) :
  truthy s = true -> exists t, s = Some t /\ t ≠ "".
Proof.
  destruct s as [t|]; [|discriminate].
  intros Ht. exists t. split; [reflexivity|]. by apply truthy_Some.
Qed.

Lemma removeToken_store_empty (w : World) :
  store_empty (AuthService.removeToken w).
Proof.
  intros b. unfold AuthService.removeToken.
  destruct (window w) as [b0|] eqn:Hw; simpl.
  - intros [= <-]. simpl. pose proof keys_differ.
    repeat split; by simplify_map_eq.
  - rewrite Hw. discriminate.
Qed.

Lemma store_empty_getToken (w : World) :
  store_empty w -> AuthService.getToken w = None.
Proof.
  unfold store_empty, AuthService.getToken. intros He.
  destruct (window w) as [b|]; [|reflexivity].
  by destruct (He b eq_refl) as (-> & _).
Qed.

Lemma store_empty_getUser `{JSON} (w : World) :
  store_empty w -> AuthService.getUser w = Return None.
Proof.
  unfold store_empty, AuthService.getUser. intros He.
  destruct (window w) as [b|]; [|reflexivity].
  by destruct (He b eq_refl) as (_ & -> & _).
Qed.

Lemma store_empty_removeToken (w : World) :
  store_empty w -> AuthService.removeToken w = w.
Proof.
  unfold store_empty, AuthService.removeToken. intros He.
  destruct w as [[b|] u l]; simpl in *; [|reflexivity].
  destruct (He b eq_refl) as (Ht & Hu & Hc).
  unfold with_window; simpl. destruct b as [ls ck dc]; simpl in *.
  rewrite (delete_id ls _ Ht), (delete_id ls _ Hu), (delete_id ck _ Hc).
  reflexivity.
Qed.

Lemma store_empty_setUser (u : option User) (w : World) :
  store_empty w -> store_empty (AuthProvider.setUser u w).
Proof. intros He b Hb. by apply He. Qed.

Lemma store_empty_not_authenticated (w : World) :
  store_empty w -> AuthProvider.isAuthenticated w = false.
Proof.
  intros He. unfold AuthProvider.isAuthenticated.
  rewrite (store_empty_getToken _ He). simpl. apply andb_false_r.
Qed.

(** Closes the cases of an outcome table: each conjunct either holds by
    computation or has a premise the case at hand contradicts. *)
Ltac settle :=
  split_and!; intros; simplify_eq/=;
  try done; try congruence; eauto using removeToken_store_empty.

(** ** The token store (C8, C9) *)

(** C8. In a browser context: after [setToken(t)], [getToken()] returns [t],
    for every string [t]; after [removeToken()], [getToken()] and
    [getUser()] return null; [removeToken()] on a store that is already
    empty changes nothing, and calling it twice is the same as calling it
    once.  No operation involved can throw: [removeToken] is a total
    function on worlds and [getUser] completes with [Return]. *)
Theorem token_store_round_trip `{JSON}
    (b : Browser) (u : option User) (l : bool) (t : string) :
  let w := mkWorld (Some b) u l in
  AuthService.getToken (AuthService.setToken t w) = Some t /\
  AuthService.getToken (AuthService.removeToken w) = None /\
  AuthService.getUser (AuthService.removeToken w) = Return None /\
  (store_empty w -> AuthService.removeToken w = w) /\
  AuthService.removeToken (AuthService.removeToken w)
    = AuthService.removeToken w.
Proof.
  intros w. repeat split.
  - unfold AuthService.getToken, AuthService.setToken; simpl.
    by simplify_map_eq.
  - apply store_empty_getToken, removeToken_store_empty.
  - apply store_empty_getUser, removeToken_store_empty.
  - apply store_empty_removeToken.
  - apply store_empty_removeToken, removeToken_store_empty.
Qed.

Lemma token_store_round_trip_witness :
  AuthService.removeToken (mkWorld (Some Sample.cold) None false)
  = mkWorld (Some Sample.cold) None false.
Proof.
  destruct (token_store_round_trip (H := Sample.json) Sample.cold None false "T1")
    as (_ & _ & _ & Hnoop & _).
  apply Hnoop. intros b [= <-]. repeat split; reflexivity.
Defined.

(** C9. Without a [window] (server-side render) every operation of the token
    store does nothing: the getters return null without throwing and the
    setters leave the world as it is. *)
Theorem token_store_without_window `{JSON}
    (u : option User) (l : bool) (t : string) (usr : User) :
  let w := mkWorld None u l in
  AuthService.getToken w = None /\
  AuthService.getUser w = Return None /\
  AuthService.setToken t w = w /\
  AuthService.removeToken w = w /\
  AuthService.setUser usr w = w.
Proof. intros w. repeat split; reflexivity. Qed.

(** ** The shared API client (C10) *)

Lemma clearCredentials_removeToken (b : Browser) (u : option User) (l : bool) :
  with_window (ApiClient.clearCredentials b) (mkWorld (Some b) u l)
  = AuthService.removeToken (mkWorld (Some b) u l).
Proof. reflexivity. Qed.

(** C10. For every response with status 401 that [handleResponse] processes
    in a browser, whatever its body and whatever listeners are registered:
    the world handed to the [auth-expired] listeners is the one in which the
    token, the user snapshot and the mirrored cookie are already removed
    ([cleared], with [store_empty cleared]); the first listener runs exactly
    on it.  With the listener of [AuthProvider] the result is that world
    with [user] set to null, whose store is still empty. *)
Theorem unauthorized_response_clears_before_broadcast {T}
    (b : Browser) (u : option User) (l : bool)
    (first : World -> World) (rest : list (World -> World))
    (je : option ErrorBody) (jd : option T) :
  let w := mkWorld (Some b) u l in
  let response := mkResponse 401 je jd in
  let cleared := with_window (ApiClient.clearCredentials b) w in
  store_empty cleared /\
  AuthService.getToken cleared = None /\
  (ApiClient.handleResponse (first :: rest) response w).1
    = ApiClient.dispatchEvent rest (first cleared) /\
  (ApiClient.handleResponse [] response w).1 = cleared /\
  (ApiClient.handleResponse [AuthProvider.handleAuthExpired] response w).1
    = AuthProvider.setUser None cleared /\
  store_empty
    (ApiClient.handleResponse [AuthProvider.handleAuthExpired] response w).1.
Proof.
  intros w response cleared.
  assert (Hempty : store_empty cleared).
  { unfold cleared, w. rewrite clearCredentials_removeToken.
    apply removeToken_store_empty. }
  assert (Hrun : forall ls, (ApiClient.handleResponse ls response w).1
                            = ApiClient.dispatchEvent ls cleared).
  { intros ls. unfold ApiClient.handleResponse, response; simpl.
    destruct je, jd; reflexivity. }
  split_and!.
  - exact Hempty.
  - by apply store_empty_getToken.
  - apply Hrun.
  - apply Hrun.
  - apply Hrun.
  - rewrite Hrun. by apply store_empty_setUser.
Qed.

(** ** The auth endpoint calls (C3, C4) *)

(** What [verifyToken] does against a network, case by case. *)
Lemma run_verifyToken (net : Network) (w : World) :
  run net (AuthService.verifyToken w) =
    if truthy (AuthService.getToken w) then
      match net (GetVerify (AuthService.getAuthHeaders w)) with
      | Rejects => (w, Return false)
      | Responds r =>
          if ok r then (w, Return true)
          else if status r =? 401 then (AuthService.removeToken w, Return false)
          else (w, Return false)
      end
    else (w, Return false).
Proof.
  unfold AuthService.verifyToken.
  destruct (truthy (AuthService.getToken w)); simpl; [|reflexivity].
  destruct (net (GetVerify (AuthService.getAuthHeaders w))) as [|[s je jd]];
    [reflexivity|].
  unfold ok; simpl.
  destruct ((200 <=? s) && (s <=? 299)); simpl; [reflexivity|].
  destruct (s =? 401); reflexivity.
Qed.

(** What [getCurrentUser] does against a network, case by case. *)
Lemma run_getCurrentUser `{JSON} (net : Network) (w : World) :
  run net (AuthService.getCurrentUser w) =
    if truthy (AuthService.getToken w) then
      match net (GetMe (AuthService.getAuthHeaders w)) with
      | Rejects => (w, Return None)
      | Responds r =>
          if ok r then
            match json_data r with
            | Some u => (AuthService.setUser u w, Return (Some u))
            | None => (w, Return None)
            end
          else if status r =? 401 then (AuthService.removeToken w, Return None)
          else (w, Return None)
      end
    else (w, Return None).
Proof.
  unfold AuthService.getCurrentUser.
  destruct (truthy (AuthService.getToken w)); simpl; [|reflexivity].
  destruct (net (GetMe (AuthService.getAuthHeaders w))) as [|[s je jd]];
    [reflexivity|].
  unfold ok; simpl.
  destruct ((200 <=? s) && (s <=? 299)); simpl.
  - destruct jd; reflexivity.
  - destruct (s =? 401); reflexivity.
Qed.

(** C3, as stated, fails: with no connectivity [verifyToken] does not throw
    or fail in any way of its own, it completes with the boolean [false],
    the very result it gives when the server rejects the token with a 401. *)
Lemma verifyToken_network_failure_is_false :
  (run Sample.offline (AuthService.verifyToken Sample.signed_in)).2
    = Return false /\
  (run (Sample.answers 401) (AuthService.verifyToken Sample.signed_in)).2
    = Return false /\
  (run Sample.offline (AuthService.verifyToken Sample.signed_in)).2
    = (run (Sample.answers 401) (AuthService.verifyToken Sample.signed_in)).2.
Proof. split_and!; reflexivity. Qed.

(** C3, amended.  [verifyToken] never throws.  It returns [true] exactly
    when a token is stored and the reply is ok.  It returns [false] when no
    token is stored, when the reply is not ok (401 or any other status) and
    also when the request fails for a network reason.  Only the token store
    tells the failures apart: a 401 reply empties it, every other failure
    (and every success) leaves the world as it was. *)
Theorem verifyToken_outcomes (net : Network) (w : World) :
  let reply := net (GetVerify (AuthService.getAuthHeaders w)) in
  let res := run net (AuthService.verifyToken w) in
  (exists b : bool, res.2 = Return b) /\
  (res.2 = Return true <->
     truthy (AuthService.getToken w) = true /\
     exists r, reply = Responds r /\ ok r = true) /\
  (truthy (AuthService.getToken w) = false -> res = (w, Return false)) /\
  (reply = Rejects -> res = (w, Return false)) /\
  (forall r, truthy (AuthService.getToken w) = true ->
     reply = Responds r -> ok r = false -> status r = 401 ->
     res = (AuthService.removeToken w, Return false) /\ store_empty res.1) /\
  (forall r, reply = Responds r -> ok r = false -> status r ≠ 401 ->
     res = (w, Return false)).
Proof.
  intros reply res. unfold res. rewrite run_verifyToken. fold reply.
  destruct (truthy (AuthService.getToken w)) eqn:Htok;
    [|settle; split; [done|by intros (? & _)]].
  destruct reply as [|r] eqn:Hreply;
    [settle; split; [done|by intros (_ & r & ? & _)]|].
  destruct (ok r) eqn:Hok.
  - settle. split; eauto.
  - destruct (Z.eqb_spec (status r) 401) as [H401|H401]; settle;
      (split; [done|]); intros (_ & r' & [= <-] & ?); congruence.
Qed.

Lemma verifyToken_outcomes_witness :
  run (Sample.answers 401) (AuthService.verifyToken Sample.signed_in)
  = (AuthService.removeToken Sample.signed_in, Return false).
Proof.
  destruct (verifyToken_outcomes (Sample.answers 401) Sample.signed_in)
    as (_ & _ & _ & _ & H401 & _).
  apply (H401 (mkResponse 401 (Some (mkErrorBody None None)) None));
    reflexivity.
Defined.

(** C4, as stated, fails: [getCurrentUser] never fails with an error of any
    class.  When the server rejects the token (401) and when there is no
    connectivity it completes with the same value, [null]. *)
Lemma getCurrentUser_failures_are_null :
  (run (Sample.answers 401)
     (AuthService.getCurrentUser (H := Sample.json) Sample.signed_in)).2
    = Return None /\
  (run Sample.offline
     (AuthService.getCurrentUser (H := Sample.json) Sample.signed_in)).2
    = Return None /\
  (run (Sample.answers 401)
     (AuthService.getCurrentUser (H := Sample.json) Sample.signed_in)).2
    = (run Sample.offline
         (AuthService.getCurrentUser (H := Sample.json) Sample.signed_in)).2.
Proof. split_and!; reflexivity. Qed.

(** C4, amended.  [getCurrentUser] never throws.  It returns the user, and
    caches it, exactly when a token is stored and the reply is ok with a
    readable body.  It returns [null] when no token is stored, when the
    reply is not ok (401 or any other status), when the body cannot be read
    and when the request fails for a network reason.  The result does not
    tell these failures apart; only the token store does: a 401 reply
    empties it, every other failure leaves the world as it was. *)
Theorem getCurrentUser_outcomes `{JSON} (net : Network) (w : World) :
  let reply := net (GetMe (AuthService.getAuthHeaders w)) in
  let res := run net (AuthService.getCurrentUser w) in
  (exists o : option User, res.2 = Return o) /\
  (truthy (AuthService.getToken w) = false -> res = (w, Return None)) /\
  (reply = Rejects -> res = (w, Return None)) /\
  (forall r, truthy (AuthService.getToken w) = true ->
     reply = Responds r -> ok r = false -> status r = 401 ->
     res = (AuthService.removeToken w, Return None) /\ store_empty res.1) /\
  (forall r, reply = Responds r -> ok r = false -> status r ≠ 401 ->
     res = (w, Return None)) /\
  (forall r, reply = Responds r -> ok r = true -> json_data r = None ->
     res = (w, Return None)) /\
  (forall r u, truthy (AuthService.getToken w) = true ->
     reply = Responds r -> ok r = true -> json_data r = Some u ->
     res = (AuthService.setUser u w, Return (Some u))).
Proof.
  intros reply res. unfold res. rewrite run_getCurrentUser. fold reply.
  destruct (truthy (AuthService.getToken w)) eqn:Htok; [|settle].
  destruct reply as [|r] eqn:Hreply; [settle|].
  destruct (ok r) eqn:Hok.
  - destruct (json_data r) as [u|] eqn:Hdata; settle.
  - destruct (Z.eqb_spec (status r) 401) as [H401|H401]; settle.
Qed.

Lemma getCurrentUser_outcomes_witness :
  run (Sample.answers 401)
    (AuthService.getCurrentUser (H := Sample.json) Sample.signed_in)
  = (AuthService.removeToken Sample.signed_in, Return None).
Proof.
  destruct (getCurrentUser_outcomes (H := Sample.json)
              (Sample.answers 401) Sample.signed_in)
    as (_ & _ & _ & H401 & _).
  apply (H401 (mkResponse 401 (Some (mkErrorBody None None)) None));
    reflexivity.
Defined.

(** ** Running composed flows *)

Lemma run_bind {A B} (net : Network) (p : Proc A) (f : A -> World -> Proc B) :
  run net (bind p f) =
    match (run net p).2 with
    | Return a => run net (f a (run net p).1)
    | Throw e => ((run net p).1, Throw e)
    end.
Proof.
  induction p as [w [a|e]|w req k IH]; simpl; [reflexivity..|apply IH].
Qed.

Lemma run_try_catch {A} (net : Network) (p : Proc A)
    (h : Exn -> World -> Proc A) :
  run net (try_catch p h) =
    match (run net p).2 with
    | Return a => run net p
    | Throw e => run net (h e (run net p).1)
    end.
Proof.
  induction p as [w [a|e]|w req k IH]; simpl; [reflexivity..|apply IH].
Qed.

Lemma run_finally {A} (net : Network) (p : Proc A) (f : World -> World) :
  run net (finally p f) = (f (run net p).1, (run net p).2).
Proof.
  induction p as [w r|w req k IH]; simpl; [reflexivity|apply IH].
Qed.

(** ** Reading the session state *)

Lemma sessionState_Authenticated (w : World) (u : User) :
  sessionState w = Authenticated u <->
  isLoading w = false /\ user w = Some u /\
  truthy (AuthService.getToken w) = true.
Proof.
  unfold sessionState, AuthProvider.isAuthenticated.
  destruct (isLoading w); [split; [done|by intros (? & _)]|].
  destruct (user w) as [u'|]; [|split; [done|by intros (_ & ? & _)]].
  rewrite bool_decide_true by eauto. simpl.
  destruct (truthy (AuthService.getToken w)).
  - split; [by intros [= ->]|by intros (_ & [= ->] & _)].
  - split; [done|by intros (_ & _ & ?)].
Qed.

Lemma sessionState_signed_out (w : World) :
  isLoading w = false -> sessionState (AuthProvider.setUser None w)
                         = Unauthenticated.
Proof. unfold sessionState; simpl. by intros ->. Qed.

Lemma removeToken_keeps_state (w : World) :
  user (AuthService.removeToken w) = user w /\
  isLoading (AuthService.removeToken w) = isLoading w.
Proof. unfold AuthService.removeToken. by destruct (window w). Qed.

Lemma getAuthHeaders_token (w : World) :
  truthy (AuthService.getToken w) = true ->
  AuthService.getAuthHeaders w = AuthService.getToken w.
Proof. unfold AuthService.getAuthHeaders. by intros ->. Qed.

(** ** Periodic re-validation (C2) *)

Lemma run_periodic_check (net : Network) (w : World) :
  truthy (AuthService.getToken w) = true ->
  run net (AuthProvider.periodic_check w) =
    match net (GetVerify (AuthService.getAuthHeaders w)) with
    | Rejects => (AuthProvider.setUser None w, Return tt)
    | Responds r =>
        if ok r then (w, Return tt)
        else if status r =? 401
             then (AuthProvider.setUser None (AuthService.removeToken w),
                   Return tt)
             else (AuthProvider.setUser None w, Return tt)
    end.
Proof.
  intros Htok. unfold AuthProvider.periodic_check.
  rewrite Htok, run_bind, run_verifyToken, Htok.
  destruct (net (GetVerify (AuthService.getAuthHeaders w))) as [|r];
    [reflexivity|].
  destruct (ok r); [reflexivity|].
  destruct (status r =? 401); reflexivity.
Qed.

(** C2, as stated, fails: in a signed-in session, a periodic check that
    finds no connectivity leaves the token store as it was but signs the
    controller out. *)
Lemma periodic_check_offline_signs_out :
  sessionState Sample.signed_in = Authenticated Sample.u1 /\
  window (run Sample.offline (AuthProvider.periodic_check Sample.signed_in)).1
    = window Sample.signed_in /\
  sessionState
    (run Sample.offline (AuthProvider.periodic_check Sample.signed_in)).1
    = Unauthenticated /\
  sessionState
    (run Sample.offline (AuthProvider.periodic_check Sample.signed_in)).1
    ≠ Authenticated Sample.u1.
Proof. split_and!; [reflexivity..|discriminate]. Qed.

(** C2, amended.  On every periodic check made while the controller is
    [Authenticated]: the check never throws; when the request fails for a
    network reason, or is answered with an error status other than 401, the
    token store is unchanged and the controller becomes [Unauthenticated];
    when it is answered with 401 the token store is emptied and the
    controller becomes [Unauthenticated]; only an ok reply leaves the
    controller (and the whole world) as it was. *)
Theorem periodic_check_outcomes (net : Network) (w : World) (u : User) :
  sessionState w = Authenticated u ->
  let reply := net (GetVerify (AuthService.getAuthHeaders w)) in
  let res := run net (AuthProvider.periodic_check w) in
  res.2 = Return tt /\
  (reply = Rejects ->
     window res.1 = window w /\ sessionState res.1 = Unauthenticated) /\
  (forall r, reply = Responds r -> ok r = false -> status r ≠ 401 ->
     window res.1 = window w /\ sessionState res.1 = Unauthenticated) /\
  (forall r, reply = Responds r -> ok r = false -> status r = 401 ->
     store_empty res.1 /\ sessionState res.1 = Unauthenticated) /\
  (forall r, reply = Responds r -> ok r = true ->
     res.1 = w /\ sessionState res.1 = Authenticated u).
Proof.
  intros Hauth reply res.
  pose proof Hauth as (Hload & Huser & Htok)%sessionState_Authenticated.
  unfold res. rewrite run_periodic_check by done. fold reply.
  pose proof (sessionState_signed_out w Hload) as Hout.
  assert (Hout' : sessionState
            (AuthProvider.setUser None (AuthService.removeToken w))
          = Unauthenticated).
  { apply sessionState_signed_out.
    by rewrite (proj2 (removeToken_keeps_state w)). }
  destruct reply as [|r] eqn:Hreply; [settle|].
  destruct (ok r) eqn:Hok; [settle|].
  destruct (Z.eqb_spec (status r) 401) as [H401|H401]; settle.
  split; [|done]. apply store_empty_setUser, removeToken_store_empty.
Qed.

Lemma periodic_check_outcomes_witness :
  window (run Sample.offline (AuthProvider.periodic_check Sample.signed_in)).1
    = window Sample.signed_in /\
  sessionState
    (run Sample.offline (AuthProvider.periodic_check Sample.signed_in)).1
    = Unauthenticated.
Proof.
  destruct (periodic_check_outcomes Sample.offline Sample.signed_in Sample.u1)
    as (_ & Hoff & _); [reflexivity|].
  apply Hoff. reflexivity.
Defined.

(** ** Initialisation on mount (C1) *)

(** Mounted on a store with no token, the provider makes no request at all
    and is [Unauthenticated] at once. *)
Lemma initAuth_without_token `{JSON} (win : option Browser) :
  truthy (AuthService.getToken (AuthProvider.mount win)) = false ->
  AuthProvider.initAuth (AuthProvider.mount win)
    = Done (mkWorld win None false) (Return tt) /\
  sessionState (mkWorld win None false) = Unauthenticated.
Proof.
  intros Htok. unfold AuthProvider.initAuth, AuthProvider.initAuth_try.
  change (AuthProvider.setIsLoading true (AuthProvider.mount win))
    with (AuthProvider.mount win).
  by rewrite Htok.
Qed.

(** C1, as stated, fails: mounted on a store holding the token [T1] and the
    snapshot of [u1], the provider is suspended on the [verifyToken] request
    and what it exposes meanwhile is [Initializing], with no user. *)
Lemma initAuth_warm_start_is_initializing :
  let p := AuthProvider.initAuth (H := Sample.json)
             (AuthProvider.mount (Some Sample.warm)) in
  AuthService.getToken (visible p) = Some "T1" /\
  AuthService.getUser (H := Sample.json) (visible p) = Return (Some Sample.u1) /\
  pending p = true /\
  user (visible p) = None /\
  sessionState (visible p) = Initializing /\
  sessionState (visible p) ≠ Authenticated Sample.u1.
Proof. split_and!; [reflexivity..|discriminate]. Qed.

(** C1, amended.  For every mount in which the token store holds a token
    and a cached user: the provider calls [verifyToken] and, until that call
    resolves, exposes [Initializing] (the world is still the one it was
    mounted on, [user] null and [isLoading] true).  It exposes
    [Authenticated(cachedUser)] once the call has resolved to true; if the
    call resolves to false the token store is emptied and the state becomes
    [Unauthenticated]. *)
Theorem initAuth_with_cached_user `{JSON}
    (net : Network) (b : Browser) (t : string) (u : User) :
  let w0 := AuthProvider.mount (Some b) in
  AuthService.getToken w0 = Some t -> t ≠ "" ->
  AuthService.getUser w0 = Return (Some u) ->
  let p := AuthProvider.initAuth w0 in
  let reply := net (GetVerify (Some t)) in
  let res := run net p in
  pending p = true /\
  visible p = w0 /\
  sessionState (visible p) = Initializing /\
  res.2 = Return tt /\
  (forall r, reply = Responds r -> ok r = true ->
     res.1 = mkWorld (Some b) (Some u) false /\
     sessionState res.1 = Authenticated u) /\
  ((reply = Rejects \/ exists r, reply = Responds r /\ ok r = false) ->
     store_empty res.1 /\ sessionState res.1 = Unauthenticated).
Proof.
  intros w0 Htok Hne Huser p reply res.
  assert (Htruthy : truthy (AuthService.getToken w0) = true).
  { rewrite Htok. by apply truthy_Some. }
  assert (Hhdr : AuthService.getAuthHeaders w0 = Some t).
  { by rewrite getAuthHeaders_token. }
  assert (Hp : p = finally
             (try_catch
                (bind (AuthService.verifyToken w0) (fun isValid w =>
                   if isValid then
                     Done (AuthProvider.setUser (Some u) w) (Return tt)
                   else
                     Done (AuthProvider.setUser None
                             (AuthService.removeToken w)) (Return tt)))
                (fun _ w =>
                   Done (AuthProvider.setUser None
                           (AuthService.removeToken w)) (Return tt)))
             (AuthProvider.setIsLoading false)).
  { unfold p, AuthProvider.initAuth, AuthProvider.initAuth_try.
    change (AuthProvider.setIsLoading true w0) with w0.
    by rewrite Htruthy, Huser. }
  assert (Hrun : res =
    match reply with
    | Rejects => (mkWorld (window (AuthService.removeToken w0)) None false,
                  Return tt)
    | Responds r =>
        if ok r then (mkWorld (Some b) (Some u) false, Return tt)
        else (mkWorld (window (AuthService.removeToken w0)) None false,
              Return tt)
    end).
  { unfold res. rewrite Hp, run_finally, run_try_catch, run_bind.
    rewrite run_verifyToken, Htruthy, Hhdr. fold reply.
    destruct reply as [|r]; [reflexivity|].
    destruct (ok r); [reflexivity|].
    destruct (status r =? 401); [|reflexivity].
    cbn -[AuthService.removeToken].
    by rewrite (store_empty_removeToken _ (removeToken_store_empty w0)). }
  assert (Hcleared :
    store_empty (mkWorld (window (AuthService.removeToken w0)) None false)).
  { intros b' Hb'. by apply (removeToken_store_empty w0). }
  split_and!.
  - rewrite Hp. unfold AuthService.verifyToken. by rewrite Htruthy.
  - rewrite Hp. unfold AuthService.verifyToken. by rewrite Htruthy.
  - rewrite Hp. unfold AuthService.verifyToken. by rewrite Htruthy.
  - rewrite Hrun. destruct reply as [|r]; [done|]. by destruct (ok r).
  - intros r Hr Hok. rewrite Hrun, Hr, Hok. split; [done|].
    apply sessionState_Authenticated. split_and!; [done..|]. apply Htruthy.
  - intros Hfail. rewrite Hrun.
    assert (Hres : (match reply with
                    | Rejects =>
                        (mkWorld (window (AuthService.removeToken w0)) None
                           false, Return tt)
                    | Responds r =>
                        if ok r then (mkWorld (Some b) (Some u) false, Return tt)
                        else (mkWorld (window (AuthService.removeToken w0))
                                None false, Return tt)
                    end : World * Outcome unit)
                   = (mkWorld (window (AuthService.removeToken w0)) None false,
                      Return tt)).
    { destruct Hfail as [->|(r & -> & ->)]; reflexivity. }
    rewrite Hres. split; [exact Hcleared|reflexivity].
Qed.

Lemma initAuth_with_cached_user_witness :
  let p := AuthProvider.initAuth (H := Sample.json)
             (AuthProvider.mount (Some Sample.warm)) in
  pending p = true /\
  visible p = AuthProvider.mount (Some Sample.warm) /\
  sessionState (visible p) = Initializing /\
  (run (Sample.answers 200) p).1 = Sample.signed_in.
Proof.
  destruct (initAuth_with_cached_user (H := Sample.json)
              (Sample.answers 200) Sample.warm "T1" Sample.u1)
    as (Hpend & Hvis & Hinit & _ & Hok & _); [reflexivity|done|reflexivity|].
  split_and!; [exact Hpend|exact Hvis|exact Hinit|].
  apply (Hok (mkResponse 200 (Some (mkErrorBody None None)) None));
    reflexivity.
Defined.

(** ** Logout (C5) *)

Lemma run_logout (net : Network) (w : World) :
  run net (AuthProvider.logout w)
  = (AuthProvider.setUser None (AuthService.removeToken w), Return tt).
Proof.
  unfold AuthProvider.logout, AuthService.logout.
  rewrite run_try_catch, run_bind.
  by destruct (truthy (AuthService.getToken w)).
Qed.

(** C5. For every invocation of [logout], whatever the remote logout call
    does (it succeeds, it is answered with an error, the request itself
    fails): [logout] completes without throwing, afterwards the token store
    holds neither token nor user snapshot (nor the cookie), the provider's
    [user] is null and [isAuthenticated] is false; the session state is
    [Unauthenticated].  The last part is read where [logout] can be invoked
    from: a page under [RouteGuard], which renders its children only when
    [isLoading] is false. *)
Theorem logout_always_signs_out `{JSON} (net : Network) (w : World) :
  let res := run net (AuthProvider.logout w) in
  res.2 = Return tt /\
  store_empty res.1 /\
  AuthService.getToken res.1 = None /\
  AuthService.getUser res.1 = Return None /\
  user res.1 = None /\
  AuthProvider.isAuthenticated res.1 = false /\
  (RouteGuard.render w = RouteGuard.RenderChildren ->
   sessionState res.1 = Unauthenticated).
Proof.
  intros res. unfold res. rewrite run_logout. simpl.
  assert (He : store_empty
                 (AuthProvider.setUser None (AuthService.removeToken w))).
  { apply store_empty_setUser, removeToken_store_empty. }
  split_and!; [done|exact He|by apply store_empty_getToken
              |by apply store_empty_getUser|done
              |by apply store_empty_not_authenticated|].
  unfold RouteGuard.render. intros Hguard.
  apply sessionState_signed_out.
  rewrite (proj2 (removeToken_keeps_state w)).
  by destruct (isLoading w).
Qed.

Lemma logout_always_signs_out_witness :
  sessionState (run Sample.offline (AuthProvider.logout Sample.signed_in)).1
  = Unauthenticated.
Proof.
  destruct (logout_always_signs_out (H := Sample.json)
              Sample.offline Sample.signed_in)
    as (_ & _ & _ & _ & _ & _ & Hstate).
  apply Hstate. reflexivity.
Defined.

(** ** Login (C6) *)

Lemma run_login `{JSON} (net : Network) (email password : string) (w : World) :
  run net (AuthProvider.login email password w) =
    match net (PostLogin (mkLoginCredentials email password)) with
    | Rejects => (w, Throw (TypeError "Failed to fetch"))
    | Responds r =>
        if ok r then
          match json_data r with
          | Some a =>
              (AuthProvider.setUser (Some (auth_user a))
                 (AuthService.setUser (auth_user a)
                    (AuthService.setToken (access_token a) w)),
               Return tt)
          | None => (w, Throw SyntaxError)
          end
        else
          match json_error r with
          | Some body =>
              (w, Throw (Error (or_else (detail body) "Login failed")))
          | None => (w, Throw SyntaxError)
          end
    end.
Proof.
  unfold AuthProvider.login, AuthService.login.
  rewrite run_try_catch, run_bind. simpl.
  destruct (net (PostLogin (mkLoginCredentials email password)))
    as [|[s je jd]]; [reflexivity|].
  unfold ok; simpl.
  destruct ((200 <=? s) && (s <=? 299)); simpl.
  - destruct jd; reflexivity.
  - destruct je; reflexivity.
Qed.





(** ** The access guard (C7) *)

(** The render decision of [ProtectedRoute] depends on the session state
    alone: [requiredRole] plays no part in it. *)
Lemma ProtectedRoute_render_by_state (requiredRole : list string) (w : World) :
  ProtectedRoute.render requiredRole w =
    match sessionState w with
    | Initializing => ProtectedRoute.RenderFallback
    | Authenticated _ => ProtectedRoute.RenderChildren
    | Unauthenticated => ProtectedRoute.RenderNull
    end.
Proof.
  unfold ProtectedRoute.render, sessionState, AuthProvider.isAuthenticated.
  destruct (isLoading w); [reflexivity|].
  destruct (user w) as [u|]; simpl; [|reflexivity].
  by destruct (truthy (AuthService.getToken w)).
Qed.

(** One run of the effect makes at most one [router.push]: to the login view
    when [Unauthenticated], to the unauthorized view when [Authenticated]
    with a role outside a non-empty [requiredRole], none otherwise. *)
Lemma ProtectedRoute_effect_by_state (requiredRole : list string) (w : World) :
  ProtectedRoute.effect requiredRole w =
    match sessionState w with
    | Initializing => []
    | Authenticated u =>
        if (0 <? Z.of_nat (length requiredRole))
           && negb (ProtectedRoute.includes requiredRole (role u))
        then ["/unauthorized"]
        else []
    | Unauthenticated => ["/login"]
    end.
Proof.
  unfold ProtectedRoute.effect, sessionState, AuthProvider.isAuthenticated.
  destruct (isLoading w); [reflexivity|].
  destruct (user w) as [u|]; simpl; [|reflexivity].
  by destruct (truthy (AuthService.getToken w)).
Qed.

(** The interval of the periodic check is armed in every [Authenticated]
    state, and fires every ten minutes. *)
Lemma interval_armed_when_authenticated (w : World) (u : User) :
  sessionState w = Authenticated u ->
  AuthProvider.interval_armed w = true /\ AuthProvider.interval_ms = 600000.
Proof.
  intros (_ & Hu & Htok)%sessionState_Authenticated.
  unfold AuthProvider.interval_armed. rewrite Hu, Htok.
  split; [|reflexivity]. rewrite bool_decide_true by eauto. reflexivity.
Qed.

(** C7, the code at the failing input.  A signed-in developer on a route
    that requires the role admin: the state is [Authenticated] with a role
    outside the required set, the effect asks for the unauthorized view, and
    yet the component renders its children. *)
Theorem ProtectedRoute_renders_children_for_wrong_role :
  sessionState Sample.signed_in = Authenticated Sample.u1 /\
  ProtectedRoute.includes ["admin"] (role Sample.u1) = false /\
  ProtectedRoute.effect ["admin"] Sample.signed_in = ["/unauthorized"] /\
  ProtectedRoute.render ["admin"] Sample.signed_in
    = ProtectedRoute.RenderChildren.
Proof. split_and!; reflexivity. Qed.

(** * Further properties of the code *)

(** ** Flows among other flows *)

Lemma run_among_id {A} (net : Network) (p : Proc A) :
  run_among net (fun w => w) p = run net p.
Proof. induction p as [w r|w req k IH]; simpl; [reflexivity|apply IH]. Qed.

Lemma keeps_run_among {A} (I : World -> Prop) (net : Network)
    (others : World -> World) (p : Proc A) :
  (forall w, I w -> I (others w)) ->
  keeps I p -> I (run_among net others p).1.
Proof.
  intros Hothers. induction p as [w r|w req k IH]; simpl; [done|].
  intros [Hw Hk]. apply IH, Hk, Hothers, Hw.
Qed.

Lemma keeps_bind {A B} (I : World -> Prop) (p : Proc A)
    (f : A -> World -> Proc B) :
  keeps I p -> (forall a w, I w -> keeps I (f a w)) -> keeps I (bind p f).
Proof.
  intros Hp Hf. induction p as [w [a|e]|w req k IH]; simpl in *; [auto..|].
  destruct Hp as [Hw Hk]. split; [done|]. intros r w' Hw'. apply IH, Hk, Hw'.
Qed.

Lemma keeps_try_catch {A} (I : World -> Prop) (p : Proc A)
    (h : Exn -> World -> Proc A) :
  keeps I p -> (forall e w, I w -> keeps I (h e w)) ->
  keeps I (try_catch p h).
Proof.
  intros Hp Hh. induction p as [w [a|e]|w req k IH]; simpl in *; [auto..|].
  destruct Hp as [Hw Hk]. split; [done|]. intros r w' Hw'. apply IH, Hk, Hw'.
Qed.

Lemma keeps_finally {A} (I : World -> Prop) (p : Proc A) (f : World -> World) :
  keeps I p -> (forall w, I w -> I (f w)) -> keeps I (finally p f).
Proof.
  intros Hp Hf. induction p as [w r|w req k IH]; simpl in *; [auto|].
  destruct Hp as [Hw Hk]. split; [done|]. intros r w' Hw'. apply IH, Hk, Hw'.
Qed.

(** Every flow touches the world through five writes only: a property
    that these writes preserve is kept by every flow. *)
Section Keeps.
Context `{JSON}.
Variable I : World -> Prop.
Hypothesis I_removeToken : forall w, I w -> I (AuthService.removeToken w).
Hypothesis I_setToken : forall t w, I w -> I (AuthService.setToken t w).
Hypothesis I_setSnapshot : forall u w, I w -> I (AuthService.setUser u w).
Hypothesis I_setUser : forall o w, I w -> I (AuthProvider.setUser o w).

Lemma keeps_verifyToken (w : World) :
  I w -> keeps I (AuthService.verifyToken w).
Proof.
  intros Hw. unfold AuthService.verifyToken.
  destruct (truthy (AuthService.getToken w)); simpl; [|done].
  split; [done|]. intros [|[s je jd]] w' Hw'; simpl; [done|].
  unfold ok; simpl. destruct ((200 <=? s) && (s <=? 299)); simpl; [done|].
  destruct (s =? 401); auto.
Qed.

Lemma keeps_getCurrentUser (w : World) :
  I w -> keeps I (AuthService.getCurrentUser w).
Proof.
  intros Hw. unfold AuthService.getCurrentUser.
  destruct (truthy (AuthService.getToken w)); simpl; [|done].
  split; [done|]. intros [|[s je jd]] w' Hw'; simpl; [done|].
  unfold ok; simpl. destruct ((200 <=? s) && (s <=? 299)); simpl.
  - destruct jd; simpl; auto.
  - destruct (s =? 401); auto.
Qed.

Lemma keeps_login (email password : string) (w : World) :
  I w -> keeps I (AuthProvider.login email password w).
Proof.
  intros Hw. unfold AuthProvider.login, AuthService.login; simpl.
  split; [done|]. intros [|[s je jd]] w' Hw'; simpl; [done|].
  unfold ok; simpl. destruct ((200 <=? s) && (s <=? 299)); simpl.
  - destruct jd; simpl; auto.
  - destruct je; simpl; auto.
Qed.

Lemma keeps_logout (w : World) : I w -> keeps I (AuthProvider.logout w).
Proof.
  intros Hw. unfold AuthProvider.logout, AuthService.logout.
  destruct (truthy (AuthService.getToken w)); simpl; auto.
Qed.

Lemma keeps_periodic_check (w : World) :
  I w -> keeps I (AuthProvider.periodic_check w).
Proof.
  intros Hw. unfold AuthProvider.periodic_check.
  destruct (truthy (AuthService.getToken w)); simpl; [|done].
  apply keeps_bind; [by apply keeps_verifyToken|].
  intros [|] w' Hw'; simpl; auto.
Qed.

Lemma keeps_refreshUser (w : World) :
  I w -> keeps I (AuthProvider.refreshUser w).
Proof.
  intros Hw. unfold AuthProvider.refreshUser.
  apply keeps_try_catch; [|simpl; auto].
  apply keeps_bind; [by apply keeps_getCurrentUser|]. simpl; auto.
Qed.

Lemma keeps_initAuth (w : World) :
  (forall l w, I w -> I (AuthProvider.setIsLoading l w)) ->
  I w -> keeps I (AuthProvider.initAuth w).
Proof.
  intros I_setIsLoading Hw. unfold AuthProvider.initAuth.
  apply keeps_finally; [|by auto].
  apply keeps_try_catch; [|simpl; auto].
  unfold AuthProvider.initAuth_try.
  destruct (truthy _); simpl; [|by auto].
  destruct (AuthService.getUser _) as [[u|]|e]; simpl.
  - apply keeps_bind; [apply keeps_verifyToken; auto|].
    intros [|] w' Hw'; simpl; auto.
  - apply keeps_bind; [apply keeps_getCurrentUser; auto|]. simpl; auto.
  - auto.
Qed.

End Keeps.

(** ** The token store, further *)

(** X1. In a browser, [setUser(u)] followed by [getUser()] gives [u] back,
    provided [JSON.parse] inverts [JSON.stringify] on [u] and the text is not
    empty.  The two halves of the store do not disturb each other:
    [setUser] leaves the token and the cookie as they are, and [setToken]
    leaves what [getUser] reads as it is. *)
Theorem snapshot_round_trip `{JSON}
    (b : Browser) (u0 : option User) (l : bool) (u : User) (t : string) :
  let w := mkWorld (Some b) u0 l in
  (JSON_parse (JSON_stringify u) = Return (Some u) ->
   JSON_stringify u ≠ "" ->
   AuthService.getUser (AuthService.setUser u w) = Return (Some u)) /\
  AuthService.getToken (AuthService.setUser u w) = AuthService.getToken w /\
  (forall b', window (AuthService.setUser u w) = Some b' ->
     cookie b' = cookie b) /\
  AuthService.getUser (AuthService.setToken t w) = AuthService.getUser w.
Proof.
  intros w. pose proof keys_differ. split_and!.
  - intros Hinv Hne. unfold AuthService.getUser; simpl.
    rewrite lookup_insert_eq; simpl.
    by destruct (String.eqb_spec (JSON_stringify u) "").
  - unfold AuthService.getToken; simpl. by simplify_map_eq.
  - by intros b' [= <-].
  - unfold AuthService.getUser; simpl. by simplify_map_eq.
Qed.

Lemma snapshot_round_trip_witness :
  AuthService.getUser (H := Sample.json)
    (AuthService.setUser (H := Sample.json) Sample.u1
       (mkWorld (Some Sample.cold) None false))
  = Return (Some Sample.u1).
Proof.
  destruct (snapshot_round_trip (H := Sample.json)
              Sample.cold None false Sample.u1 "T1") as (Hrt & _).
  apply Hrt; [reflexivity|discriminate].
Defined.

(** X4. Once initialisation has finished, it has finished for good:
    [login], [logout], the periodic check, [refreshUser] and the
    [auth-expired] listener never set [isLoading] again, whatever the
    network answers and whatever else runs meanwhile (as long as that does
    not set it either); so [RouteGuard] keeps rendering the pages. *)
Theorem initialised_for_good `{JSON} (net : Network)
    (others : World -> World) (email password : string) (w : World) :
  isLoading w = false ->
  (forall w', isLoading w' = false -> isLoading (others w') = false) ->
  let stays (w' : World) :=
    isLoading w' = false /\ RouteGuard.render w' = RouteGuard.RenderChildren in
  stays (run_among net others (AuthProvider.login email password w)).1 /\
  stays (run_among net others (AuthProvider.logout w)).1 /\
  stays (run_among net others (AuthProvider.periodic_check w)).1 /\
  stays (run_among net others (AuthProvider.refreshUser w)).1 /\
  stays (AuthProvider.handleAuthExpired w).
Proof.
  intros Hw Hothers stays.
  set (I := fun w' : World => isLoading w' = false).
  assert (Hstays : forall w', I w' -> stays w').
  { intros w' Hw'. split; [done|]. unfold RouteGuard.render. by rewrite Hw'. }
  assert (Hrm : forall w, I w -> I (AuthService.removeToken w)).
  { intros w0. unfold I. by rewrite (proj2 (removeToken_keeps_state w0)). }
  assert (Hst : forall t w, I w -> I (AuthService.setToken t w)).
  { intros t w0. unfold I, AuthService.setToken. by destruct (window w0). }
  assert (Hsn : forall u w, I w -> I (AuthService.setUser u w)).
  { intros u w0. unfold I, AuthService.setUser. by destruct (window w0). }
  assert (Hsu : forall o w, I w -> I (AuthProvider.setUser o w)) by done.
  split_and!; apply Hstays; try done;
    apply (keeps_run_among I); try done.
  - by apply keeps_login.
  - by apply keeps_logout.
  - by apply keeps_periodic_check.
  - by apply keeps_refreshUser.
Qed.

Lemma initialised_for_good_witness :
  RouteGuard.render
    (run_among Sample.offline (fun w => w)
       (AuthProvider.logout Sample.signed_in)).1
  = RouteGuard.RenderChildren.
Proof.
  destruct (initialised_for_good (H := Sample.json) Sample.offline
              (fun w => w) "a@b.com" "pw" Sample.signed_in)
    as (_ & (_ & Hlogout) & _); [reflexivity|done|exact Hlogout].
Defined.

(** ** The static checks of [AuthService] *)

(** X5. [AuthService.isAuthenticated()] is true exactly when a non-empty
    token is stored and the snapshot parses to a user.  It is false on an
    empty store, after [removeToken], without a [window], and when the
    snapshot is missing.  It reads the snapshot before it looks at the
    token: a malformed snapshot makes it throw, token or no token. *)
Theorem isAuthenticated_static `{JSON} (w : World) :
  (forall u, AuthService.getUser w = Return (Some u) ->
     AuthService.isAuthenticated w
     = Return (truthy (AuthService.getToken w))) /\
  (AuthService.getUser w = Return None ->
     AuthService.isAuthenticated w = Return false) /\
  (forall e, AuthService.getUser w = Throw e ->
     AuthService.isAuthenticated w = Throw e) /\
  (store_empty w -> AuthService.isAuthenticated w = Return false) /\
  AuthService.isAuthenticated (AuthService.removeToken w) = Return false /\
  (window w = None -> AuthService.isAuthenticated w = Return false).
Proof.
  assert (Hnone : forall w0, AuthService.getUser w0 = Return None ->
                             AuthService.isAuthenticated w0 = Return false).
  { intros w0 Hu. unfold AuthService.isAuthenticated. rewrite Hu.
    f_equal. rewrite bool_decide_false; [apply andb_false_r|].
    by intros [? ?]. }
  split_and!.
  - intros u Hu. unfold AuthService.isAuthenticated. rewrite Hu.
    rewrite bool_decide_true by eauto. by rewrite andb_true_r.
  - apply Hnone.
  - intros e Hu. unfold AuthService.isAuthenticated. by rewrite Hu.
  - intros He. by apply Hnone, store_empty_getUser.
  - apply Hnone, store_empty_getUser, removeToken_store_empty.
  - intros Hwin. apply Hnone. unfold AuthService.getUser. by rewrite Hwin.
Qed.

Lemma isAuthenticated_static_witness :
  AuthService.isAuthenticated (H := Sample.json) Sample.signed_in
  = Return true.
Proof.
  destruct (isAuthenticated_static (H := Sample.json) Sample.signed_in)
    as (Hsome & _).
  apply (Hsome Sample.u1). reflexivity.
Defined.

(** X6. [checkAuthStatus] is [verifyToken]: for every world the two are the
    same flow, with the same request and the same outcomes; the token test
    in front adds nothing. *)
Theorem checkAuthStatus_is_verifyToken (w : World) :
  AuthService.checkAuthStatus w = AuthService.verifyToken w.
Proof.
  unfold AuthService.checkAuthStatus, AuthService.verifyToken.
  by destruct (truthy (AuthService.getToken w)).
Qed.

(** ** The requests that are sent *)

Lemma requests_bind {A B} (net : Network) (p : Proc A)
    (f : A -> World -> Proc B) :
  requests net (bind p f) =
    (requests net p ++
     match (run net p).2 with
     | Return a => requests net (f a (run net p).1)
     | Throw _ => []
     end)%list.
Proof.
  induction p as [w [a|e]|w req k IH]; simpl; [reflexivity..|].
  f_equal. apply IH.
Qed.

Lemma requests_try_catch {A} (net : Network) (p : Proc A)
    (h : Exn -> World -> Proc A) :
  requests net (try_catch p h) =
    (requests net p ++
     match (run net p).2 with
     | Return _ => []
     | Throw e => requests net (h e (run net p).1)
     end)%list.
Proof.
  induction p as [w [a|e]|w req k IH]; simpl; [reflexivity..|].
  f_equal. apply IH.
Qed.

Lemma requests_finally {A} (net : Network) (p : Proc A) (f : World -> World) :
  requests net (finally p f) = requests net p.
Proof.
  induction p as [w r|w req k IH]; simpl; [reflexivity|]. f_equal. apply IH.
Qed.

Lemma requests_verifyToken (net : Network) (w : World) :
  requests net (AuthService.verifyToken w) =
    if truthy (AuthService.getToken w)
    then [GetVerify (AuthService.getToken w)] else [].
Proof.
  unfold AuthService.verifyToken, AuthService.getAuthHeaders.
  destruct (truthy (AuthService.getToken w)); simpl; [|reflexivity].
  f_equal. destruct (net _) as [|[s je jd]]; simpl; [reflexivity|].
  unfold ok; simpl. by destruct ((200 <=? s) && (s <=? 299)).
Qed.

Lemma requests_getCurrentUser `{JSON} (net : Network) (w : World) :
  requests net (AuthService.getCurrentUser w) =
    if truthy (AuthService.getToken w)
    then [GetMe (AuthService.getToken w)] else [].
Proof.
  unfold AuthService.getCurrentUser, AuthService.getAuthHeaders.
  destruct (truthy (AuthService.getToken w)); simpl; [|reflexivity].
  f_equal. destruct (net _) as [|[s je jd]]; simpl; [reflexivity|].
  unfold ok; simpl. destruct ((200 <=? s) && (s <=? 299)); simpl;
    [by destruct jd|reflexivity].
Qed.

(** X7. No request goes to an authenticated endpoint without a token:
    [verifyToken], [getCurrentUser], [checkAuthStatus] and
    [AuthService.logout] send exactly one request, carrying the stored
    token as bearer, when a non-empty token is stored, and none at all
    otherwise; [login] always sends exactly one request, with the
    credentials it was given. *)
Theorem requests_carry_the_token `{JSON} (net : Network)
    (credentials : LoginCredentials) (w : World) :
  let bearer := AuthService.getToken w in
  requests net (AuthService.verifyToken w)
    = (if truthy bearer then [GetVerify bearer] else []) /\
  requests net (AuthService.checkAuthStatus w)
    = (if truthy bearer then [GetVerify bearer] else []) /\
  requests net (AuthService.getCurrentUser w)
    = (if truthy bearer then [GetMe bearer] else []) /\
  requests net (AuthService.logout w)
    = (if truthy bearer then [PostLogout bearer] else []) /\
  requests net (AuthService.login credentials w) = [PostLogin credentials].
Proof.
  intros bearer. split_and!.
  - apply requests_verifyToken.
  - unfold AuthService.checkAuthStatus. fold bearer.
    destruct (truthy bearer) eqn:Htok; [|reflexivity]. simpl.
    rewrite requests_verifyToken. fold bearer. by rewrite Htok.
  - apply requests_getCurrentUser.
  - unfold AuthService.logout, AuthService.getAuthHeaders, bearer.
    by destruct (truthy (AuthService.getToken w)).
  - unfold AuthService.login; simpl. f_equal.
    destruct (net _) as [|[s je jd]]; simpl; [reflexivity|].
    unfold ok; simpl. destruct ((200 <=? s) && (s <=? 299)); simpl;
      [by destruct jd|by destruct je].
Qed.

(** ** Initialisation on mount, every path *)

(** What [initAuth] leaves behind, path by path. *)
Lemma run_initAuth `{JSON} (net : Network) (w : World) :
  run net (AuthProvider.initAuth w) =
    let token := AuthService.getToken w in
    let cleared := mkWorld (window (AuthService.removeToken w)) None false in
    let kept := mkWorld (window w) None false in
    if truthy token then
      match AuthService.getUser w with
      | Throw _ => (cleared, Return tt)
      | Return (Some u) =>
          match net (GetVerify token) with
          | Rejects => (cleared, Return tt)
          | Responds r =>
              if ok r then (mkWorld (window w) (Some u) false, Return tt)
              else (cleared, Return tt)
          end
      | Return None =>
          match net (GetMe token) with
          | Rejects => (kept, Return tt)
          | Responds r =>
              if ok r then
                match json_data r with
                | Some u =>
                    (mkWorld (window (AuthService.setUser u w)) (Some u) false,
                     Return tt)
                | None => (kept, Return tt)
                end
              else if status r =? 401 then (cleared, Return tt)
              else (kept, Return tt)
          end
      end
    else (kept, Return tt).
Proof.
  assert (Hwin : forall l' w', window (AuthService.removeToken
                                         (AuthProvider.setIsLoading l' w'))
                               = window (AuthService.removeToken w')).
  { intros l' [[b|] u' l'']; reflexivity. }
  assert (Hidem : forall w', AuthService.removeToken
                               (AuthService.removeToken w')
                             = AuthService.removeToken w').
  { intros w'. apply store_empty_removeToken, removeToken_store_empty. }
  assert (Hend : forall o w', AuthProvider.setIsLoading false
                                (AuthProvider.setUser o w')
                              = mkWorld (window w') o false) by done.
  unfold AuthProvider.initAuth, AuthProvider.initAuth_try.
  rewrite run_finally, run_try_catch.
  set (w1 := AuthProvider.setIsLoading true w).
  change (AuthService.getToken w1) with (AuthService.getToken w).
  change (AuthService.getUser w1) with (AuthService.getUser w).
  cbv zeta.
  destruct (truthy (AuthService.getToken w)) eqn:Htok;
    simpl negb; cbv iota; [|reflexivity].
  assert (Hhdr : AuthService.getAuthHeaders w1 = AuthService.getToken w).
  { unfold AuthService.getAuthHeaders.
    change (AuthService.getToken w1) with (AuthService.getToken w).
    by rewrite Htok. }
  destruct (AuthService.getUser w) as [[u|]|e].
  - rewrite run_bind, run_verifyToken.
    change (AuthService.getToken w1) with (AuthService.getToken w).
    rewrite Htok, Hhdr.
    destruct (net (GetVerify (AuthService.getToken w))) as [|[s je jd]];
      cbn -[AuthService.removeToken AuthProvider.setIsLoading
            AuthProvider.setUser].
    + rewrite Hend; unfold w1; by rewrite Hwin.
    + unfold ok; simpl status.
      destruct ((200 <=? s) && (s <=? 299));
        cbn -[AuthService.removeToken AuthProvider.setIsLoading
              AuthProvider.setUser]; [reflexivity|].
      destruct (s =? 401);
        cbn -[AuthService.removeToken AuthProvider.setIsLoading
              AuthProvider.setUser]; rewrite Hend; unfold w1; by rewrite ?Hidem, Hwin.
  - rewrite run_bind, run_getCurrentUser.
    change (AuthService.getToken w1) with (AuthService.getToken w).
    rewrite Htok, Hhdr.
    destruct (net (GetMe (AuthService.getToken w))) as [|[s je jd]];
      cbn -[AuthService.removeToken AuthService.setUser
            AuthProvider.setIsLoading AuthProvider.setUser]; [reflexivity|].
    unfold ok; simpl status.
    destruct ((200 <=? s) && (s <=? 299));
      cbn -[AuthService.removeToken AuthService.setUser
            AuthProvider.setIsLoading AuthProvider.setUser].
    + destruct jd as [u|];
        cbn -[AuthService.removeToken AuthService.setUser
              AuthProvider.setIsLoading AuthProvider.setUser];
        [|reflexivity].
      rewrite Hend. by destruct w as [[b|] u' l'].
    + destruct (s =? 401);
        cbn -[AuthService.removeToken AuthService.setUser
              AuthProvider.setIsLoading AuthProvider.setUser];
        [|reflexivity].
      rewrite Hend; unfold w1; by rewrite Hwin.
  - cbn -[AuthService.removeToken AuthProvider.setIsLoading
          AuthProvider.setUser].
    rewrite Hend; unfold w1; by rewrite Hwin.
Qed.

Lemma requests_initAuth `{JSON} (net : Network) (w : World) :
  requests net (AuthProvider.initAuth w)
    = (if truthy (AuthService.getToken w) then
         match AuthService.getUser w with
         | Throw _ => []
         | Return (Some _) => [GetVerify (AuthService.getToken w)]
         | Return None => [GetMe (AuthService.getToken w)]
         end
       else []).
Proof.
  set (token := AuthService.getToken w).
  unfold AuthProvider.initAuth, AuthProvider.initAuth_try.
  rewrite requests_finally, requests_try_catch.
  set (w1 := AuthProvider.setIsLoading true w).
  change (AuthService.getToken w1) with token.
  change (AuthService.getUser w1) with (AuthService.getUser w).
  destruct (truthy token) eqn:Htok; simpl negb; cbv iota; [|reflexivity].
  destruct (AuthService.getUser w) as [[u|]|e]; [| |reflexivity].
  - rewrite run_bind, requests_bind, requests_verifyToken, run_verifyToken.
    change (AuthService.getToken w1) with token. rewrite Htok.
    destruct (net _) as [|[s je jd]]; simpl; [reflexivity|].
    unfold ok; simpl. destruct ((200 <=? s) && (s <=? 299)); simpl;
      [reflexivity|]. by destruct (s =? 401).
  - rewrite run_bind, requests_bind, requests_getCurrentUser,
      run_getCurrentUser.
    change (AuthService.getToken w1) with token. rewrite Htok.
    destruct (net _) as [|[s je jd]]; simpl; [reflexivity|].
    unfold ok; simpl. destruct ((200 <=? s) && (s <=? 299)); simpl;
      [by destruct jd|]. by destruct (s =? 401).
Qed.

(** X8. Mounting sends at most one request, [/verify] or [/me] and never
    both: [/verify] when a snapshot is cached, [/me] when none is, and no
    request at all when no token is stored or the snapshot cannot be
    parsed.  The periodic check and [refreshUser] likewise send one request
    when a token is stored and none otherwise.  Each request carries the
    stored token. *)
Theorem provider_sends_one_request `{JSON} (net : Network) (w : World) :
  let token := AuthService.getToken w in
  requests net (AuthProvider.initAuth w)
    = (if truthy token then
         match AuthService.getUser w with
         | Throw _ => []
         | Return (Some _) => [GetVerify token]
         | Return None => [GetMe token]
         end
       else []) /\
  requests net (AuthProvider.periodic_check w)
    = (if truthy token then [GetVerify token] else []) /\
  requests net (AuthProvider.refreshUser w)
    = (if truthy token then [GetMe token] else []).
Proof.
  intros token. split_and!.
  - apply requests_initAuth.
  - unfold AuthProvider.periodic_check. fold token.
    destruct (truthy token) eqn:Htok; [|reflexivity].
    rewrite requests_bind, requests_verifyToken, run_verifyToken.
    fold token. rewrite Htok.
    destruct (net _) as [|[s je jd]]; simpl; [reflexivity|].
    unfold ok; simpl. destruct ((200 <=? s) && (s <=? 299)); simpl;
      [reflexivity|]. by destruct (s =? 401).
  - unfold AuthProvider.refreshUser.
    rewrite requests_try_catch, run_bind, requests_bind,
      requests_getCurrentUser, run_getCurrentUser. fold token.
    destruct (truthy token) eqn:Htok; [|reflexivity].
    destruct (net _) as [|[s je jd]]; simpl; [reflexivity|].
    unfold ok; simpl. destruct ((200 <=? s) && (s <=? 299)); simpl;
      [by destruct jd|]. by destruct (s =? 401).
Qed.

Lemma getToken_setSnapshot `{JSON} (u : User) (w : World) :
  AuthService.getToken (AuthService.setUser u w) = AuthService.getToken w.
Proof.
  destruct w as [[b|] u0 l]; [|reflexivity].
  unfold AuthService.getToken; simpl. pose proof keys_differ.
  by simplify_map_eq.
Qed.

(** X9. [initAuth] always settles: whatever is stored and whatever the
    network answers, it completes without throwing and with [isLoading]
    false, so the state is never left [Initializing]; and it leaves the
    provider's [user] and the state in step: [Authenticated(u)] when [user]
    is [u], [Unauthenticated] when [user] is null. *)
Theorem initAuth_always_settles `{JSON} (net : Network) (w : World) :
  let res := run net (AuthProvider.initAuth w) in
  res.2 = Return tt /\
  isLoading res.1 = false /\
  RouteGuard.render res.1 = RouteGuard.RenderChildren /\
  (forall u, user res.1 = Some u -> sessionState res.1 = Authenticated u) /\
  (user res.1 = None -> sessionState res.1 = Unauthenticated).
Proof.
  intros res. unfold res. rewrite run_initAuth. cbv zeta.
  assert (Hauth : forall win u, truthy (AuthService.getToken w) = true ->
            AuthService.getToken (mkWorld win (Some u) false)
              = AuthService.getToken w ->
            sessionState (mkWorld win (Some u) false) = Authenticated u).
  { intros win u Htok Heq. apply sessionState_Authenticated.
    split_and!; [done..|]. by rewrite Heq. }
  destruct (truthy (AuthService.getToken w)) eqn:Htok; [|by split_and!].
  destruct (AuthService.getUser w) as [[u|]|e]; [| |by split_and!].
  - destruct (net _) as [|r]; [by split_and!|].
    destruct (ok r); [|by split_and!].
    split_and!; try done. intros u' [= <-]. by apply Hauth.
  - destruct (net _) as [|r]; [by split_and!|].
    destruct (ok r); [|by destruct (status r =? 401); split_and!].
    destruct (json_data r) as [u|]; [|by split_and!].
    split_and!; try done. intros u' [= <-]. apply Hauth; [done|].
    apply (getToken_setSnapshot u w).
Qed.

(** X10. Mounted on a store that holds a token and no snapshot, the
    provider asks [/me]: an ok reply with a user makes the state
    [Authenticated(user)] and caches the user beside the untouched token; a
    401 empties the store; every other failure (no connectivity, another
    error status, an unreadable body) leaves the store exactly as it was.
    Every failure ends [Unauthenticated]. *)
Theorem initAuth_without_snapshot `{JSON} (net : Network) (w : World) :
  truthy (AuthService.getToken w) = true ->
  AuthService.getUser w = Return None ->
  let reply : Reply User := net (GetMe (AuthService.getToken w)) in
  let res := run net (AuthProvider.initAuth w) in
  (forall (r : Response User) (u : User),
     reply = Responds r -> ok r = true -> json_data r = Some u ->
     sessionState res.1 = Authenticated u /\
     AuthService.getToken res.1 = AuthService.getToken w /\
     window res.1 = window (AuthService.setUser u w)) /\
  (forall r : Response User,
     reply = Responds r -> ok r = false -> status r = 401 ->
     store_empty res.1 /\ sessionState res.1 = Unauthenticated) /\
  ((reply = Rejects \/
    exists r : Response User, reply = Responds r /\
      (ok r = false /\ status r ≠ 401 \/ ok r = true /\ json_data r = None)) ->
   window res.1 = window w /\ sessionState res.1 = Unauthenticated).
Proof.
  intros Htok Huser reply res. unfold res.
  rewrite run_initAuth. cbv zeta. rewrite Htok, Huser.
  change (net (GetMe (AuthService.getToken w))) with reply.
  assert (Hcleared : store_empty
            (mkWorld (window (AuthService.removeToken w)) None false)).
  { intros b Hb. by apply (removeToken_store_empty w). }
  destruct reply as [|r0] eqn:Hreply.
  { split_and!; [done..|]. by intros _. }
  change (Response (payload (GetMe (AuthService.getToken w))))
    with (Response User) in *.
  cbn [payload].
  destruct (ok r0) eqn:Hok.
  - destruct (json_data r0) as [u0|] eqn:Hdata.
    + split_and!.
      * intros r u [= <-] _ Hd. assert (u = u0) as -> by congruence.
        split_and!; [|apply getToken_setSnapshot|done].
        apply sessionState_Authenticated. split_and!; [done..|].
        change (truthy (AuthService.getToken (AuthService.setUser u0 w))
                = true).
        by rewrite getToken_setSnapshot.
      * intros r [= <-]. congruence.
      * intros [?|(r & [= <-] & [[? _]|[_ ?]])]; congruence.
    + split_and!.
      * intros r u [= <-]. congruence.
      * intros r [= <-]. congruence.
      * by intros _.
  - destruct (Z.eqb_spec (status r0) 401) as [H401|H401].
    + split_and!.
      * intros r u [= <-]. congruence.
      * by intros r _ _ _.
      * intros [?|(r & [= <-] & [[_ ?]|[? _]])]; congruence.
    + split_and!.
      * intros r u [= <-]. congruence.
      * intros r [= <-]. congruence.
      * by intros _.
Qed.

Lemma initAuth_without_snapshot_witness :
  sessionState
    (run Sample.me_ok
       (AuthProvider.initAuth (H := Sample.json)
          (AuthProvider.mount (Some Sample.token_only)))).1
  = Authenticated Sample.u1.
Proof.
  destruct (initAuth_without_snapshot (H := Sample.json) Sample.me_ok
              (AuthProvider.mount (Some Sample.token_only)))
    as (Hok & _); [reflexivity..|].
  apply (Hok (mkResponse 200 None (Some Sample.u1)) Sample.u1); reflexivity.
Defined.

(** X11. A snapshot that [JSON.parse] rejects does not crash
    initialisation: no request is sent, the exception is caught, the store
    is emptied and the state ends [Unauthenticated]. *)
Theorem initAuth_malformed_snapshot `{JSON}
    (net : Network) (w : World) (e : Exn) :
  truthy (AuthService.getToken w) = true ->
  AuthService.getUser w = Throw e ->
  let res := run net (AuthProvider.initAuth w) in
  requests net (AuthProvider.initAuth w) = [] /\
  res.2 = Return tt /\
  store_empty res.1 /\
  sessionState res.1 = Unauthenticated.
Proof.
  intros Htok Huser res. unfold res.
  rewrite requests_initAuth, run_initAuth. cbv zeta. rewrite Htok, Huser.
  split_and!; try done.
  intros b Hb. by apply (removeToken_store_empty w).
Qed.

Lemma initAuth_malformed_snapshot_witness :
  sessionState
    (run Sample.offline
       (AuthProvider.initAuth (H := Sample.json)
          (AuthProvider.mount (Some Sample.corrupt)))).1
  = Unauthenticated.
Proof.
  destruct (initAuth_malformed_snapshot (H := Sample.json) Sample.offline
              (AuthProvider.mount (Some Sample.corrupt)) SyntaxError)
    as (_ & _ & _ & Hstate); [reflexivity..|exact Hstate].
Defined.

(** X12. Mounted on a store with no token (or an empty one), the provider
    sends no request, is not left waiting, and ends [Unauthenticated] at
    once; it does not touch the store, so a snapshot stored without a token
    stays where it is. *)
Theorem initAuth_no_token `{JSON} (net : Network) (w : World) :
  truthy (AuthService.getToken w) = false ->
  let p := AuthProvider.initAuth w in
  pending p = false /\
  requests net p = [] /\
  run net p = (mkWorld (window w) None false, Return tt) /\
  sessionState (run net p).1 = Unauthenticated.
Proof.
  intros Htok p. unfold p.
  rewrite requests_initAuth, run_initAuth. cbv zeta. rewrite Htok.
  split_and!; try done.
  unfold AuthProvider.initAuth, AuthProvider.initAuth_try.
  change (AuthService.getToken (AuthProvider.setIsLoading true w))
    with (AuthService.getToken w).
  by rewrite Htok.
Qed.

Lemma initAuth_no_token_witness :
  requests Sample.offline
    (AuthProvider.initAuth (H := Sample.json)
       (AuthProvider.mount (Some Sample.cold))) = [] /\
  sessionState
    (run Sample.offline
       (AuthProvider.initAuth (H := Sample.json)
          (AuthProvider.mount (Some Sample.cold)))).1
  = Unauthenticated.
Proof.
  destruct (initAuth_no_token (H := Sample.json) Sample.offline
              (AuthProvider.mount (Some Sample.cold)))
    as (_ & Hreq & _ & Hstate); [reflexivity|].
  split; [exact Hreq|exact Hstate].
Defined.

(** ** The other provider operations *)

Lemma run_refreshUser `{JSON} (net : Network) (w : World) :
  run net (AuthProvider.refreshUser w) =
    match (run net (AuthService.getCurrentUser w)).2 with
    | Return o =>
        (AuthProvider.setUser o (run net (AuthService.getCurrentUser w)).1,
         Return tt)
    | Throw _ =>
        (AuthProvider.setUser None (run net (AuthService.getCurrentUser w)).1,
         Return tt)
    end.
Proof.
  unfold AuthProvider.refreshUser. rewrite run_try_catch, run_bind.
  by destruct ((run net (AuthService.getCurrentUser w)).2).
Qed.

(** X13. [refreshUser] never throws and sets the provider's [user] to
    exactly what [getCurrentUser] returned: the fetched user after an ok
    reply, null after any failure.  In particular a refresh made while
    there is no connectivity signs the controller out in memory and leaves
    the stored credentials as they are. *)
Theorem refreshUser_outcomes `{JSON} (net : Network) (w : World) :
  let fetched := run net (AuthService.getCurrentUser w) in
  let reply : Reply User := net (GetMe (AuthService.getAuthHeaders w)) in
  let res := run net (AuthProvider.refreshUser w) in
  (exists o, fetched.2 = Return o /\
     res = (AuthProvider.setUser o fetched.1, Return tt)) /\
  (reply = Rejects ->
     res = (AuthProvider.setUser None w, Return tt) /\
     window res.1 = window w) /\
  (forall (r : Response User) (u : User),
     truthy (AuthService.getToken w) = true ->
     reply = Responds r -> ok r = true -> json_data r = Some u ->
     user res.1 = Some u).
Proof.
  intros fetched reply res. unfold res, fetched.
  rewrite run_refreshUser, run_getCurrentUser.
  change (net (GetMe (AuthService.getAuthHeaders w))) with reply.
  destruct (truthy (AuthService.getToken w)) eqn:Htok;
    [|split_and!; [by eexists| |done]; by intros _].
  destruct reply as [|r0] eqn:Hreply;
    [split_and!; [by eexists|by intros _|done]|].
  change (Response (payload (GetMe (AuthService.getAuthHeaders w))))
    with (Response User) in *.
  cbn [payload].
  destruct (ok r0) eqn:Hok.
  - destruct (json_data r0) as [u0|] eqn:Hdata.
    + split_and!; [by eexists|done|].
      intros r u _ [= <-] _ Hd. simpl. congruence.
    + split_and!; [by eexists|done|].
      intros r u _ [= <-]. congruence.
  - destruct (status r0 =? 401); (split_and!; [by eexists|done|]);
      intros r u _ [= <-]; congruence.
Qed.

Lemma refreshUser_outcomes_witness :
  run Sample.offline (AuthProvider.refreshUser (H := Sample.json)
                        Sample.signed_in)
  = (AuthProvider.setUser None Sample.signed_in, Return tt) /\
  window (run Sample.offline (AuthProvider.refreshUser (H := Sample.json)
                                Sample.signed_in)).1
  = window Sample.signed_in.
Proof.
  destruct (refreshUser_outcomes (H := Sample.json) Sample.offline
              Sample.signed_in) as (_ & Hoff & _).
  apply Hoff. reflexivity.
Defined.

(** X14. [logout] clears whatever the world has become in the meantime:
    if other flows change the store or the user while the logout request is
    in flight (a login completing, say), the store is still empty and
    [user] still null when [logout] returns, and it returns without
    throwing. *)
Theorem logout_clears_among_others (net : Network)
    (others : World -> World) (w : World) :
  let res := run_among net others (AuthProvider.logout w) in
  res.2 = Return tt /\
  store_empty res.1 /\
  user res.1 = None /\
  AuthProvider.isAuthenticated res.1 = false.
Proof.
  intros res.
  assert (Hres : exists w', res = (AuthProvider.setUser None
                                     (AuthService.removeToken w'), Return tt)).
  { unfold res, AuthProvider.logout, AuthService.logout.
    destruct (truthy (AuthService.getToken w)); simpl; eauto. }
  destruct Hres as (w' & ->). simpl.
  assert (He : store_empty (AuthProvider.setUser None
                              (AuthService.removeToken w'))).
  { apply store_empty_setUser, removeToken_store_empty. }
  split_and!; [done|exact He|done|by apply store_empty_not_authenticated].
Qed.

(** X15. A late [/verify] reply cannot sign a user back in.  Mounted on a
    token and a cached user, if the store has been emptied by the time the
    reply arrives (a logout, or a 401 seen by the API client), then whatever
    the reply says the state ends [Unauthenticated] and the store stays
    empty: [isAuthenticated] needs the token. *)
Theorem late_verify_cannot_sign_in `{JSON} (net : Network)
    (others : World -> World) (b : Browser) (u : User) :
  let w0 := AuthProvider.mount (Some b) in
  truthy (AuthService.getToken w0) = true ->
  AuthService.getUser w0 = Return (Some u) ->
  store_empty (others w0) ->
  let res := run_among net others (AuthProvider.initAuth w0) in
  res.2 = Return tt /\
  store_empty res.1 /\
  AuthProvider.isAuthenticated res.1 = false /\
  sessionState res.1 = Unauthenticated.
Proof.
  intros w0 Htok Huser Hempty res.
  assert (Hres : exists o w',
            store_empty w' /\ res = (mkWorld (window w') o false, Return tt)).
  { unfold res, AuthProvider.initAuth, AuthProvider.initAuth_try.
    change (AuthProvider.setIsLoading true w0) with w0.
    rewrite Htok, Huser. unfold AuthService.verifyToken. rewrite Htok.
    cbn -[AuthService.removeToken].
    destruct (net _) as [|[s je jd]]; cbn -[AuthService.removeToken].
    - exists None, (AuthService.removeToken (others w0)).
      split; [apply removeToken_store_empty|done].
    - unfold ok; simpl status.
      destruct ((200 <=? s) && (s <=? 299)); cbn -[AuthService.removeToken].
      + exists (Some u), (others w0). done.
      + destruct (s =? 401); cbn -[AuthService.removeToken].
        * exists None, (AuthService.removeToken
                          (AuthService.removeToken (others w0))).
          split; [apply removeToken_store_empty|done].
        * exists None, (AuthService.removeToken (others w0)).
          split; [apply removeToken_store_empty|done]. }
  destruct Hres as (o & w' & He & ->). simpl.
  assert (He' : store_empty (mkWorld (window w') o false))
    by (intros b' Hb'; by apply He).
  assert (Hna := store_empty_not_authenticated _ He').
  split_and!; [done|exact He'|exact Hna|].
  unfold sessionState. simpl. rewrite Hna. by destruct o.
Qed.

Lemma late_verify_cannot_sign_in_witness :
  sessionState
    (run_among (Sample.answers 200) AuthService.removeToken
       (AuthProvider.initAuth (H := Sample.json)
          (AuthProvider.mount (Some Sample.warm)))).1
  = Unauthenticated.
Proof.
  destruct (late_verify_cannot_sign_in (H := Sample.json) (Sample.answers 200)
              AuthService.removeToken Sample.warm Sample.u1)
    as (_ & _ & _ & Hstate); [reflexivity|reflexivity| |exact Hstate].
  apply removeToken_store_empty.
Defined.

(** ** Token and snapshot go together *)

Lemma paired_window (w1 w2 : World) :
  window w1 = window w2 -> paired w2 -> paired w1.
Proof. intros Hw Hp b Hb. apply Hp. by rewrite <- Hw. Qed.

Lemma paired_removeToken (w : World) : paired (AuthService.removeToken w).
Proof.
  intros b Hb [x Hx].
  destruct (removeToken_store_empty w b Hb) as (_ & Hu & _). congruence.
Qed.

Lemma paired_setSnapshot `{JSON} (u : User) (w : World) :
  truthy (AuthService.getToken w) = true ->
  paired (AuthService.setUser u w).
Proof.
  intros (t & Ht & _)%truthy_is_Some b Hb _.
  exists t. rewrite <- Ht, <- (getToken_setSnapshot u w).
  unfold AuthService.getToken. by rewrite Hb.
Qed.

Lemma paired_login `{JSON} (u : User) (t : string) (w : World) :
  paired (AuthService.setUser u (AuthService.setToken t w)).
Proof.
  destruct w as [[b|] u0 l]; [|by intros b Hb].
  intros b' [= <-] _. simpl. pose proof keys_differ.
  exists t. by simplify_map_eq.
Qed.

(** X16. The snapshot is never stored without the token: if every stored
    snapshot sits beside a stored token before, the same holds after
    [login], [logout], [initAuth], the periodic check and [refreshUser],
    whatever the network answers (each flow run on its own). *)
Theorem snapshot_never_without_token `{JSON} (net : Network)
    (email password : string) (w : World) :
  paired w ->
  paired (run net (AuthProvider.login email password w)).1 /\
  paired (run net (AuthProvider.logout w)).1 /\
  paired (run net (AuthProvider.initAuth w)).1 /\
  paired (run net (AuthProvider.periodic_check w)).1 /\
  paired (run net (AuthProvider.refreshUser w)).1.
Proof.
  intros Hp.
  assert (Hkept : forall o l, paired (mkWorld (window w) o l))
    by (intros; by apply (paired_window _ w)).
  assert (Hcleared : forall o l,
            paired (mkWorld (window (AuthService.removeToken w)) o l)).
  { intros. apply (paired_window _ (AuthService.removeToken w)); [done|].
    apply paired_removeToken. }
  assert (Hcached : forall u o l,
            truthy (AuthService.getToken w) = true ->
            paired (mkWorld (window (AuthService.setUser u w)) o l)).
  { intros. apply (paired_window _ (AuthService.setUser u w)); [done|].
    by apply paired_setSnapshot. }
  split_and!.
  - rewrite run_login. destruct (net _) as [|r]; [done|].
    destruct (ok r).
    + destruct (json_data r) as [a|]; [|done]. simpl.
      apply (paired_window _ (AuthService.setUser (auth_user a)
                                (AuthService.setToken (access_token a) w)));
        [done|apply paired_login].
    + by destruct (json_error r).
  - rewrite run_logout. apply Hcleared.
  - rewrite run_initAuth. cbv zeta.
    destruct (truthy (AuthService.getToken w)) eqn:Htok; [|apply Hkept].
    destruct (AuthService.getUser w) as [[u|]|e]; [| |apply Hcleared].
    + destruct (net _) as [|r]; [apply Hcleared|].
      destruct (ok r); [apply Hkept|apply Hcleared].
    + destruct (net _) as [|r]; [apply Hkept|].
      destruct (ok r).
      * destruct (json_data r); [by apply Hcached|apply Hkept].
      * destruct (status r =? 401); [apply Hcleared|apply Hkept].
  - unfold AuthProvider.periodic_check.
    destruct (truthy (AuthService.getToken w)) eqn:Htok; [|done].
    rewrite run_bind, run_verifyToken, Htok.
    destruct (net _) as [|r]; [apply Hkept|].
    destruct (ok r); [done|].
    destruct (status r =? 401); [apply Hcleared|apply Hkept].
  - rewrite run_refreshUser, run_getCurrentUser.
    destruct (truthy (AuthService.getToken w)) eqn:Htok; [|apply Hkept].
    destruct (net _) as [|r]; [apply Hkept|].
    destruct (ok r).
    + destruct (json_data r); [by apply Hcached|apply Hkept].
    + destruct (status r =? 401); [apply Hcleared|apply Hkept].
Qed.

Lemma snapshot_never_without_token_witness :
  paired (run Sample.me_ok
            (AuthProvider.refreshUser (H := Sample.json)
               (mkWorld (Some Sample.token_only) None false))).1.
Proof.
  destruct (snapshot_never_without_token (H := Sample.json) Sample.me_ok
              "a@b.com" "pw" (mkWorld (Some Sample.token_only) None false))
    as (_ & _ & _ & _ & Hrefresh); [|exact Hrefresh].
  intros b [= <-] [x Hx]. discriminate Hx.
Defined.

(** ** The API client, further *)

Lemma handleResponse_status {T} (listeners : list (World -> World))
    (r : Response T) (w : World) :
  ApiClient.api_status T (ApiClient.handleResponse listeners r w).2 = status r.
Proof.
  unfold ApiClient.handleResponse.
  destruct (negb (ok r)).
  - by destruct (json_error r).
  - by destruct (json_data r).
Qed.

(** X17. Every result of the client's verbs carries either data or an
    error, never both and never neither.  It carries data exactly when the
    server answered with an ok status and a readable body; its [status] is
    that of the response, and 0 when the request itself failed. *)
Theorem api_result_shape {T} (listeners : list (World -> World))
    (reply : Reply T) (w : World) :
  let result := (ApiClient.request listeners reply w).2 in
  (is_Some (ApiClient.data T result) <-> ApiClient.error T result = None) /\
  (forall d, ApiClient.data T result = Some d <->
     exists r, reply = Responds r /\ ok r = true /\ json_data r = Some d) /\
  (reply = Rejects -> ApiClient.api_status T result = 0) /\
  (forall r, reply = Responds r -> ApiClient.api_status T result = status r).
Proof.
  intros result. unfold result.
  destruct reply as [|r]; simpl.
  { split_and!; [split; [by intros [? ?]|done]| |done..].
    intros d. split; [done|]. by intros (r & ? & _). }
  split_and!; [| |done|].
  - unfold ApiClient.handleResponse.
    destruct (ok r); simpl.
    + destruct (json_data r); simpl; split; try done; eauto;
        by intros [? ?].
    + destruct (json_error r); simpl; split; try done; by intros [? ?].
  - intros d. unfold ApiClient.handleResponse.
    destruct (ok r) eqn:Hok; simpl.
    + destruct (json_data r) as [d0|] eqn:Hd; simpl.
      * split; [intros [= <-]; eauto|]. intros (r' & [= <-] & _ & ?).
        congruence.
      * split; [done|]. intros (r' & [= <-] & _ & ?). congruence.
    + destruct (json_error r); simpl;
        (split; [done|]); intros (r' & [= <-] & ? & _); congruence.
  - intros r' [= <-]. apply handleResponse_status.
Qed.

(** X18. The client touches the world for one reason only: a 401 received
    in a browser.  A failed request, a response with any other status
    (a 403 or a 500, say) and any response handled without a [window]
    leave the store and the session as they are and wake no listener,
    whatever listeners are registered. *)
Theorem api_client_leaves_world (T : Type) (listeners : list (World -> World))
    (reply : Reply T) (w : World) :
  (reply = Rejects -> (ApiClient.request listeners reply w).1 = w) /\
  (forall r, reply = Responds r -> status r ≠ 401 ->
     (ApiClient.request listeners reply w).1 = w) /\
  (window w = None -> (ApiClient.request listeners reply w).1 = w).
Proof.
  assert (Hfst : forall r : Response T,
            (ApiClient.handleResponse listeners r w).1 =
            match window w with
            | Some b =>
                if status r =? 401
                then ApiClient.dispatchEvent listeners
                       (with_window (ApiClient.clearCredentials b) w)
                else w
            | None => w
            end).
  { intros r. unfold ApiClient.handleResponse.
    destruct (negb (ok r)); [by destruct (json_error r)|
                             by destruct (json_data r)]. }
  split_and!.
  - by intros ->.
  - intros r -> Hs. simpl. rewrite Hfst.
    destruct (window w); [|done]. by destruct (Z.eqb_spec (status r) 401).
  - intros Hw. destruct reply as [|r]; [done|]. simpl.
    by rewrite Hfst, Hw.
Qed.

Lemma api_client_leaves_world_witness :
  (ApiClient.request [AuthProvider.handleAuthExpired]
     (Responds (mkResponse 500 (Some (mkErrorBody None None)) (None : option unit)))
     Sample.signed_in).1
  = Sample.signed_in.
Proof.
  destruct (api_client_leaves_world unit [AuthProvider.handleAuthExpired]
              (Responds (mkResponse 500 (Some (mkErrorBody None None)) None))
              Sample.signed_in) as (_ & Hother & _).
  apply (Hother (mkResponse 500 (Some (mkErrorBody None None)) None));
    [reflexivity|discriminate].
Defined.

(** X19. The headers the client sends follow the token store of
    [AuthService]: the [Authorization] header is [Bearer] and the stored
    token when a non-empty token is stored -- in particular right after
    [setToken] -- and is absent otherwise: after [removeToken], and after
    the client itself has handled a 401.  In a browser the content type is
    always sent; without a [window] no header is. *)
Theorem api_headers_follow_the_store
    (b : Browser) (u : option User) (l : bool) (t : string)
    (je : option ErrorBody) :
  let w := mkWorld (Some b) u l in
  (t ≠ "" ->
   ApiClient.getAuthHeaders (AuthService.setToken t w) !! "Authorization"
   = Some ("Bearer " +:+ t)) /\
  (AuthService.getToken w = Some t -> t ≠ "" ->
   ApiClient.getAuthHeaders w !! "Authorization" = Some ("Bearer " +:+ t)) /\
  (truthy (AuthService.getToken w) = false ->
   ApiClient.getAuthHeaders w !! "Authorization" = None) /\
  ApiClient.getAuthHeaders (AuthService.removeToken w) !! "Authorization"
    = None /\
  ApiClient.getAuthHeaders
    (ApiClient.handleResponse [AuthProvider.handleAuthExpired]
       (mkResponse 401 je (None : option unit)) w).1 !! "Authorization"
    = None /\
  ApiClient.getAuthHeaders w !! "Content-Type" = Some "application/json" /\
  ApiClient.getAuthHeaders (mkWorld None u l) = ∅.
Proof.
  intros w.
  assert (Hsome : forall b0 : Browser,
            localStorage b0 !! AuthService.TOKEN_KEY = Some t -> t ≠ "" ->
            ApiClient.getAuthHeaders (mkWorld (Some b0) u l) !! "Authorization"
            = Some ("Bearer " +:+ t)).
  { intros b0 Hb0 Hne. unfold ApiClient.getAuthHeaders; simpl.
    change "rampforge_token" with AuthService.TOKEN_KEY. rewrite Hb0.
    rewrite (proj2 (truthy_Some t) Hne). by rewrite lookup_insert_eq. }
  assert (Hnone : forall b0 : Browser,
            truthy (localStorage b0 !! AuthService.TOKEN_KEY) = false ->
            ApiClient.getAuthHeaders (mkWorld (Some b0) u l) !! "Authorization"
            = None).
  { intros b0 Hb0. unfold ApiClient.getAuthHeaders; simpl.
    change "rampforge_token" with AuthService.TOKEN_KEY. by rewrite Hb0. }
  split_and!.
  - intros Hne. apply Hsome; [|done]. simpl. by rewrite lookup_insert_eq.
  - intros Ht Hne. by apply Hsome.
  - apply Hnone.
  - apply Hnone. simpl. pose proof keys_differ. by simplify_map_eq.
  - destruct je; apply Hnone; simpl; pose proof keys_differ;
      by simplify_map_eq.
  - unfold ApiClient.getAuthHeaders; simpl.
    destruct (truthy _); by simplify_map_eq.
  - reflexivity.
Qed.

Lemma api_headers_follow_the_store_witness :
  ApiClient.getAuthHeaders
    (AuthService.setToken "T1" (mkWorld (Some Sample.cold) None false))
    !! "Authorization"
  = Some "Bearer T1".
Proof.
  destruct (api_headers_follow_the_store Sample.cold None false "T1" None)
    as (Hset & _).
  apply Hset. discriminate.
Defined.

(** X20. [testConnection] answers true exactly when the health request got
    a response with status 200, whatever its body (readable or not); a
    failed request and every other status give false. *)
Theorem testConnection_iff_200 (listeners : list (World -> World))
    (reply : Reply unit) (w : World) :
  (ApiClient.testConnection listeners reply w).2 = true <->
  exists r, reply = Responds r /\ status r = 200.
Proof.
  unfold ApiClient.testConnection; simpl.
  destruct reply as [|r]; simpl.
  - split; [done|]. by intros (r & ? & _).
  - rewrite handleResponse_status. split.
    + intros Hs%Z.eqb_eq. eauto.
    + intros (r' & [= <-] & ->). reflexivity.
Qed.

(** ** The guards, further *)

Lemma startsWith_app (route rest : string) :
  RouteGuard.startsWith (route +:+ rest) route = true.
Proof.
  unfold RouteGuard.startsWith.
  induction route as [|c route IH]; simpl; [by destruct rest|].
  destruct (Ascii.ascii_dec c c); [exact IH|done].
Qed.

Lemma existsb_elem_of {A} (f : A -> bool) (x : A) (l : list A) :
  x ∈ l -> f x = true -> existsb f l = true.
Proof.
  intros Hx Hf. apply existsb_exists. exists x.
  split; [by apply list_elem_of_In|done].
Qed.

(** X21. One run of the effect of [RouteGuard] pushes at most one route,
    and none while the provider is initialising.  A visitor who is not
    authenticated is sent to the login view, with the encoded path as the
    [redirect] parameter, exactly when the path starts with a protected
    route -- a protected route itself, anything under it, and any longer
    word that merely begins with it.  The login and register views and the
    root are not protected, so the redirect does not loop. *)
Theorem RouteGuard_unauthenticated (encodeURIComponent : string -> string)
    (pathname : string) (redirect : option string) (w : World) :
  let pushes := RouteGuard.effect encodeURIComponent pathname redirect w in
  (length pushes <= 1)%nat /\
  (isLoading w = true -> pushes = []) /\
  (isLoading w = false -> AuthProvider.isAuthenticated w = false ->
   (existsb (RouteGuard.startsWith pathname) RouteGuard.protectedRoutes = true ->
    pushes = ["/login?redirect=" +:+ encodeURIComponent pathname]) /\
   (existsb (RouteGuard.startsWith pathname) RouteGuard.protectedRoutes = false ->
    pushes = []) /\
   (forall route rest, route ∈ RouteGuard.protectedRoutes ->
      RouteGuard.effect encodeURIComponent (route +:+ rest) redirect w
      = ["/login?redirect=" +:+ encodeURIComponent (route +:+ rest)]) /\
   RouteGuard.effect encodeURIComponent "/login" redirect w = [] /\
   RouteGuard.effect encodeURIComponent "/register" redirect w = [] /\
   RouteGuard.effect encodeURIComponent "/" redirect w = []).
Proof.
  intros pushes. unfold pushes, RouteGuard.effect. cbv zeta.
  split_and!.
  - destruct (isLoading w); simpl; [lia|].
    destruct (_ && negb _); simpl; [lia|].
    destruct (_ && AuthProvider.isAuthenticated w); simpl; lia.
  - by intros ->.
  - intros -> Hauth. rewrite Hauth. simpl negb.
    rewrite !andb_true_r, !andb_false_r. split_and!.
    + by intros ->.
    + by intros ->.
    + intros route rest Hroute.
      by rewrite (existsb_elem_of _ route _ Hroute (startsWith_app route rest)).
    + reflexivity.
    + reflexivity.
    + reflexivity.
Qed.

Lemma RouteGuard_unauthenticated_witness :
  RouteGuard.effect (fun s => s) "/dashboard/projects" None
    (mkWorld (Some Sample.cold) None false)
  = ["/login?redirect=/dashboard/projects"].
Proof.
  destruct (RouteGuard_unauthenticated (fun s => s) "/dashboard/projects" None
              (mkWorld (Some Sample.cold) None false))
    as (_ & _ & Hvisitor).
  destruct (Hvisitor eq_refl eq_refl) as (_ & _ & Hunder & _).
  apply (Hunder "/dashboard" "/projects"). constructor.
Defined.

(** X22. [RouteGuard] never redirects an authenticated user away from a
    page: off the login and register views it pushes nothing.  On the login
    and register views such a user is pushed to the [redirect] parameter,
    taken as it is, or to the dashboard when the parameter is missing or
    empty. *)
Theorem RouteGuard_authenticated (encodeURIComponent : string -> string)
    (pathname : string) (redirect : option string) (w : World) :
  isLoading w = false ->
  AuthProvider.isAuthenticated w = true ->
  let pushes := RouteGuard.effect encodeURIComponent pathname redirect w in
  (pathname = "/login" \/ pathname = "/register" ->
   pushes = [or_else redirect "/dashboard"] /\
   (truthy redirect = false -> pushes = ["/dashboard"]) /\
   (forall target, redirect = Some target -> target ≠ "" ->
      pushes = [target])) /\
  (pathname ≠ "/login" -> pathname ≠ "/register" -> pushes = []).
Proof.
  intros Hload Hauth pushes.
  unfold pushes, RouteGuard.effect. cbv zeta.
  rewrite Hload, Hauth. simpl negb. rewrite !andb_false_r, !andb_true_r.
  split_and!.
  - assert (Hor : (truthy redirect = false ->
                   or_else redirect "/dashboard" = "/dashboard") /\
                  (forall target, redirect = Some target -> target ≠ "" ->
                     or_else redirect "/dashboard" = target)).
    { unfold or_else. split; [by intros ->|].
      intros target -> Hne. by rewrite (proj2 (truthy_Some target) Hne). }
    destruct Hor as [Hor1 Hor2].
    intros [->| ->]; simpl; (split_and!; [done| |]).
    + intros Hr. by rewrite Hor1.
    + intros target Hr Hne. by rewrite (Hor2 target).
    + intros Hr. by rewrite Hor1.
    + intros target Hr Hne. by rewrite (Hor2 target).
  - intros H1 H2.
    destruct (String.eqb_spec pathname "/login"); [done|].
    by destruct (String.eqb_spec pathname "/register").
Qed.

Lemma RouteGuard_authenticated_witness :
  RouteGuard.effect (fun s => s) "/login" (Some "/profile") Sample.signed_in
  = ["/profile"].
Proof.
  destruct (RouteGuard_authenticated (fun s => s) "/login" (Some "/profile")
              Sample.signed_in eq_refl eq_refl) as (Hlogin & _).
  destruct (Hlogin (or_introl eq_refl)) as (_ & _ & Htarget).
  apply (Htarget "/profile"); [reflexivity|discriminate].
Defined.

Lemma includes_elem_of (requiredRole : list string) (r : string) :
  ProtectedRoute.includes requiredRole r = true <-> r ∈ requiredRole.
Proof.
  unfold ProtectedRoute.includes. rewrite existsb_exists. split.
  - intros (x & Hx & ->%String.eqb_eq). by apply list_elem_of_In.
  - intros Hr. exists r. split; [by apply list_elem_of_In|].
    apply String.eqb_refl.
Qed.

(** X23. One run of the effect of [ProtectedRoute] pushes at most one
    route: the login view exactly when the state is [Unauthenticated], the
    unauthorized view exactly when the state is [Authenticated] with a
    non-empty [requiredRole] that does not list the user's role, and
    nothing while [Initializing] or when the role qualifies (in particular
    with the default, empty [requiredRole]). *)
Theorem ProtectedRoute_effect_decisions (requiredRole : list string)
    (w : World) :
  let pushes := ProtectedRoute.effect requiredRole w in
  (length pushes <= 1)%nat /\
  (pushes = ["/login"] <-> sessionState w = Unauthenticated) /\
  (pushes = ["/unauthorized"] <->
   exists u, sessionState w = Authenticated u /\
             requiredRole ≠ [] /\ role u ∉ requiredRole) /\
  (pushes = [] <->
   sessionState w = Initializing \/
   exists u, sessionState w = Authenticated u /\
             (requiredRole = [] \/ role u ∈ requiredRole)).
Proof.
  intros pushes. unfold pushes. rewrite ProtectedRoute_effect_by_state.
  destruct (sessionState w) as [|u|].
  - split_and!; [simpl; lia|done| |].
    + split; [done|]. by intros (u & ? & _).
    + split; [by left|done].
  - destruct (ProtectedRoute.includes requiredRole (role u)) eqn:Hinc.
    + apply includes_elem_of in Hinc. simpl negb. rewrite andb_false_r.
      split_and!; [simpl; lia|done| |].
      * split; [done|]. by intros (u' & [= <-] & _ & Hnot).
      * split; [|done]. intros _. right. exists u. split; [done|by right].
    + assert (Hnot : role u ∉ requiredRole).
      { intros Hr. apply includes_elem_of in Hr. congruence. }
      simpl negb. rewrite andb_true_r.
      destruct (Z.ltb_spec 0 (Z.of_nat (length requiredRole))) as [Hlen|Hlen].
      * assert (Hne : requiredRole ≠ []) by (intros ->; simpl in Hlen; lia).
        split_and!; [simpl; lia|done| |].
        -- split; [|done]. intros _. by exists u.
        -- split; [done|]. by intros [?|(u' & [= <-] & [?|?])].
      * assert (Hnil : requiredRole = []).
        { destruct requiredRole; [done|]. simpl in Hlen. lia. }
        split_and!; [simpl; lia|done| |].
        -- split; [done|]. by intros (u' & _ & ? & _).
        -- split; [|done]. intros _. right. exists u. split; [done|by left].
  - split_and!; [simpl; lia|done| |].
    + split; [done|]. by intros (u & ? & _).
    + split; [done|]. intros [?|(u & ? & _)]; done.
Qed.
